(** * njsPC-HA entity adapters: a shallow embedding

    The Home Assistant integration [njspc_ha] exposes the equipment of a
    nodejs-PoolController as entities.  Every entity class caches a few
    fields of one subject, filters the coordinator's events in
    [_handle_coordinator_update], derives display properties from the cache
    and forwards user intents as [api.command] calls.

    Python objects are embedded as follows.
    - JSON values ([pyval]): [None], booleans, integers, strings, lists and
      objects.  Floating-point numbers are outside the model.
    - A JSON object is an association list with string keys, read with
      first-binding-wins lookup.
    - The code->label dictionaries ([_heatmodes], [_lightthemes],
      [NJSPC_HVAC_ACTION_TO_HASS]) are insertion-ordered association lists
      whose keys are Python values; lookup compares with Python's [==]
      and fails with [TypeError] on an unhashable key.
    - Exceptions are the [Raise] branch of [result].
    - Methods that assign to [self] or call a collaborator run in the monad
      [M]: they thread the entity, append to a trace of collaborator calls
      and may raise; what was assigned before a raise stays assigned. *)

From Stdlib Require Import ZArith List String Bool Lia.
Import ListNotations.

Local Open Scope string_scope.
Local Open Scope Z_scope.
Local Open Scope list_scope.
Local Set Warnings "-register-all".

(** ** Python values *)

Inductive pyval : Type :=
| VNone
| VBool (b : bool)
| VInt (z : Z)
| VStr (s : string)
| VList (l : list pyval)
| VDict (d : list (string * pyval)).

Definition pydict : Type := list (string * pyval).

Inductive exn : Type :=
| KeyError
| TypeError
| ClientError.

Inductive result (A : Type) : Type :=
| Ok (a : A)
| Raise (e : exn).

Arguments Ok {A} a.
Arguments Raise {A} e.

Definition rbind {A B} (r : result A) (k : A -> result B) : result B :=
  match r with
  | Ok a => k a
  | Raise e => Raise e
  end.

Declare Scope result_scope.
Delimit Scope result_scope with result.
Notation "x <~ c ;; k" := (rbind c (fun x => k))
  (at level 61, c at next level, right associativity) : result_scope.

(** [try: body / except: handler] with a bare [except]. *)
Definition try_except {A} (body : result A) (handler : result A) : result A :=
  match body with
  | Ok a => Ok a
  | Raise _ => handler
  end.

Fixpoint assoc {A} (k : string) (d : list (string * A)) : option A :=
  match d with
  | [] => None
  | (k', v) :: d' => if String.eqb k' k then Some v else assoc k d'
  end.

(** Python's [==] on JSON values.  [bool] is a subclass of [int], so
    [True == 1] and [False == 0]; two objects are equal when they have the
    same size and every binding of the first is matched in the second. *)
Fixpoint py_eq (a b : pyval) {struct a} : bool :=
  match a, b with
  | VNone, VNone => true
  | VBool x, VBool y => Bool.eqb x y
  | VBool x, VInt y => Z.eqb (Z.b2z x) y
  | VInt x, VBool y => Z.eqb x (Z.b2z y)
  | VInt x, VInt y => Z.eqb x y
  | VStr s, VStr t => String.eqb s t
  | VList l1, VList l2 =>
      (fix all2 (xs ys : list pyval) {struct xs} : bool :=
         match xs, ys with
         | [], [] => true
         | x :: xs', y :: ys' => py_eq x y && all2 xs' ys'
         | _, _ => false
         end) l1 l2
  | VDict d1, VDict d2 =>
      Nat.eqb (List.length d1) (List.length d2) &&
      (fix sub (d : list (string * pyval)) {struct d} : bool :=
         match d with
         | [] => true
         | (k, v) :: d' =>
             match assoc k d2 with
             | Some w => py_eq v w
             | None => false
             end && sub d'
         end) d1
  | _, _ => false
  end.

(** [x is None] *)
Definition is_none (v : pyval) : bool :=
  match v with
  | VNone => true
  | _ => false
  end.

(** [d[k]] on a dict: [KeyError] when the key is absent. *)
Definition dict_getitem (d : pydict) (k : string) : result pyval :=
  match assoc k d with
  | Some v => Ok v
  | None => Raise KeyError
  end.

(** [k in d] on a dict. *)
Definition dict_contains (d : pydict) (k : string) : bool :=
  match assoc k d with
  | Some _ => true
  | None => false
  end.

(** [v[k]] with a string subscript on an arbitrary value: only a dict
    accepts it; lists and strings want integer indices and the scalars are
    not subscriptable. *)
Definition getitem (v : pyval) (k : string) : result pyval :=
  match v with
  | VDict d => dict_getitem d k
  | _ => Raise TypeError
  end.

(** [v + suffix], where [suffix] is a string literal: only a string can be
    extended by a string. *)
Definition py_concat (v : pyval) (suffix : string) : result pyval :=
  match v with
  | VStr s => Ok (VStr (s ++ suffix)%string)
  | _ => Raise TypeError
  end.

(** [x != y] *)
Definition py_ne (x y : pyval) : bool := negb (py_eq x y).

(** ** Dictionaries keyed by Python values *)

Definition table (V : Type) : Type := list (pyval * V).

Definition hashable (v : pyval) : bool :=
  match v with
  | VList _ | VDict _ => false
  | _ => true
  end.

Fixpoint table_find {V} (t : table V) (k : pyval) : option V :=
  match t with
  | [] => None
  | (k', v) :: t' => if py_eq k' k then Some v else table_find t' k
  end.

(** [t[k]] *)
Definition table_getitem {V} (t : table V) (k : pyval) : result V :=
  if hashable k then
    match table_find t k with
    | Some v => Ok v
    | None => Raise KeyError
    end
  else Raise TypeError.

(** [k in t] *)
Definition table_contains {V} (t : table V) (k : pyval) : result bool :=
  if hashable k then
    Ok match table_find t k with Some _ => true | None => false end
  else Raise TypeError.

(** [t[k] = v]: an existing key keeps its position. *)
Fixpoint table_setitem {V} (t : table V) (k : pyval) (v : V) : table V :=
  match t with
  | [] => [(k, v)]
  | (k', v') :: t' =>
      if py_eq k' k then (k', v) :: t' else (k', v') :: table_setitem t' k v
  end.

(** [_out = []; for x in t.values(): _out.append(x)] *)
Definition table_values {V} (t : table V) : list V := map snd t.

(** [next((k for k, v in t.items() if v == label), None)] *)
Fixpoint next_key (t : table pyval) (label : pyval) : pyval :=
  match t with
  | [] => VNone
  | (k, v) :: t' => if py_eq v label then k else next_key t' label
  end.

(** ** Collaborator calls and the entity monad *)

Inductive effect : Type :=
| WriteHaState
| Command (url : string) (data : pydict)
| LogError (fmt : string) (arg : pyval).

Definition M (S A : Type) : Type := S -> S * list effect * result A.

Definition ret {S A} (a : A) : M S A := fun s => (s, [], Ok a).

Definition bind {S A B} (c : M S A) (k : A -> M S B) : M S B :=
  fun s =>
    match c s with
    | (s1, t1, Ok a) =>
        match k a s1 with
        | (s2, t2, r) => (s2, t1 ++ t2, r)
        end
    | (s1, t1, Raise e) => (s1, t1, Raise e)
    end.

Definition get {S} : M S S := fun s => (s, [], Ok s).
Definition put {S} (s' : S) : M S unit := fun _ => (s', [], Ok tt).
Definition emit {S} (e : effect) : M S unit := fun s => (s, [e], Ok tt).
Definition lift {S A} (r : result A) : M S A := fun s => (s, [], r).

Declare Scope py_scope.
Delimit Scope py_scope with py.
Notation "x <- c ;; k" := (bind c (fun x => k))
  (at level 61, c at next level, right associativity) : py_scope.
Notation "c ;; k" := (bind c (fun _ => k))
  (at level 61, right associativity) : py_scope.

Definition final_state {S A} (o : S * list effect * result A) : S :=
  fst (fst o).
Definition trace {S A} (o : S * list effect * result A) : list effect :=
  snd (fst o).
Definition outcome {S A} (o : S * list effect * result A) : result A :=
  snd o.

(** [self.async_write_ha_state()] *)
Definition async_write_ha_state {S} : M S unit := emit WriteHaState.

(** [self.coordinator.logger.error(fmt, arg)] *)
Definition logger_error {S} (fmt : string) (arg : pyval) : M S unit :=
  emit (LogError fmt arg).

(** What the caller of [api.command(url, data)] sees: the transport either
    delivers or raises. *)
Definition transport_result (transport : string -> pydict -> option exn)
    (url : string) (data : pydict) : result unit :=
  match transport url data with
  | None => Ok tt
  | Some e => Raise e
  end.

(** [await self.coordinator.api.command(url, data)]: the call is recorded
    and the transport decides whether it raises. *)
Definition api_command {S} (transport : string -> pydict -> option exn)
    (url : string) (data : pydict) : M S unit :=
  fun s => (s, [Command url data], transport_result transport url data).

(** ** Constants of [const.py]

    [const.py] is not among the sources: its names are taken as
    parameters. *)
Record constants : Type := {
  EVENT_AVAILABILITY : string;
  EVENT_BODY : string;
  EVENT_CHLORINATOR : string;
  EVENT_CIRCUIT : string;
  EVENT_LIGHTGROUP : string;
  EVENT_PUMP : string;
  EVENT_TEMPS : string;
  API_CIRCUIT_SETSTATE : string;
  API_CIRCUIT_SETTHEME : string;
  API_LIGHTGROUP_SETSTATE : string
}.

(** The two temperature units of [homeassistant.const] that the
    integration names. *)
Inductive temperature_units : Type :=
| TEMP_FAHRENHEIT
| TEMP_CELSIUS.

(** ** climate.py *)

Module Climate.

(** The members of Home Assistant's [HVACAction] that the module names. *)
Inductive HVACAction : Type :=
| OFF
| HEATING
| COOLING.

Definition HVAC_MODE_AUTO : string := "auto".
Definition ATTR_TEMPERATURE : string := "temperature".

Definition NJSPC_HVAC_ACTION_TO_HASS : table HVACAction :=
  [ (VInt 0, OFF);
    (VInt 1, HEATING);
    (VInt 2, HEATING);
    (VInt 3, COOLING);
    (VInt 4, HEATING);
    (VInt 6, HEATING);
    (VInt 8, COOLING);
    (VInt 128, OFF) ].

Record t : Type := {
  _body : pydict;
  _heatmodes : table pyval;
  _units : pyval
}.

Definition init (body : pydict) (heatmodes : table pyval) (units : pyval) : t :=
  {| _body := body; _heatmodes := heatmodes; _units := units |}.

Definition set_body (self : t) (body : pydict) : t :=
  {| _body := body; _heatmodes := _heatmodes self; _units := _units self |}.

Section Entity.
Variable K : constants.
Variable transport : string -> pydict -> option exn.

Definition _handle_coordinator_update (data : pydict) : M t unit :=
  (self <- get ;;
   kind <- lift (dict_getitem data "event") ;;
   mine <- (if py_eq kind (VStr (EVENT_BODY K)) then
              id <- lift (dict_getitem data "id") ;;
              own <- lift (dict_getitem (_body self) "id") ;;
              ret (py_eq id own)
            else ret false) ;;
   if mine : bool then
     put (set_body self data) ;;
     async_write_ha_state
   else ret tt)%py.

Definition target_temperature (self : t) : result pyval :=
  dict_getitem (_body self) "setPoint".

Definition current_temperature (self : t) : result pyval :=
  dict_getitem (_body self) "temp".

Definition min_temp (self : t) : result Z :=
  try_except
    (ty <~ dict_getitem (_body self) "type" ;;
     val <~ getitem ty "val" ;;
     if py_eq val (VInt 0) then
       Ok (if py_eq (_units self) (VInt 0) then 70 else 21)
     else
       Ok (if py_eq (_units self) (VInt 0) then 90 else 32))%result
    (Ok (if py_eq (_units self) (VInt 0) then 70 else 21)).

Definition max_temp (self : t) : result Z :=
  try_except
    (ty <~ dict_getitem (_body self) "type" ;;
     val <~ getitem ty "val" ;;
     if py_eq val (VInt 0) then
       Ok (if py_eq (_units self) (VInt 0) then 95 else 35)
     else
       Ok (if py_eq (_units self) (VInt 0) then 104 else 40))%result
    (Ok (if py_eq (_units self) (VInt 0) then 95 else 35)).

Definition hvac_modes (self : t) : list string := [HVAC_MODE_AUTO].

Definition hvac_mode (self : t) : string := HVAC_MODE_AUTO.

Definition preset_mode (self : t) : result pyval :=
  try_except
    (hm <~ dict_getitem (_body self) "heatMode" ;;
     val <~ getitem hm "val" ;;
     table_getitem (_heatmodes self) val)%result
    (Ok (VStr "Off")).

Definition preset_modes (self : t) : list pyval :=
  table_values (_heatmodes self).

Definition hvac_action (self : t) : result HVACAction :=
  try_except
    (hs <~ dict_getitem (_body self) "heatStatus" ;;
     val <~ getitem hs "val" ;;
     table_getitem NJSPC_HVAC_ACTION_TO_HASS val)%result
    (Ok OFF).

Definition async_set_temperature (kwargs : pydict) : M t unit :=
  (self <- get ;;
   id <- lift (dict_getitem (_body self) "id") ;;
   let data :=
     [ ("id", id);
       ("heatSetpoint",
        match assoc ATTR_TEMPERATURE kwargs with
        | Some v => v
        | None => VNone
        end) ] in
   api_command transport "state/body/setPoint" data)%py.

Definition async_set_hvac_mode (hvac_mode : pyval) : M t unit :=
  ret tt.

Definition async_set_preset_mode (preset_mode : pyval) : M t unit :=
  (self <- get ;;
   let njspc_value := next_key (_heatmodes self) preset_mode in
   if is_none njspc_value then
     logger_error "Invalid mode for set_hvac_mode: %s" preset_mode
   else
     id <- lift (dict_getitem (_body self) "id") ;;
     let data := [ ("id", id); ("mode", njspc_value) ] in
     api_command transport "state/body/heatMode" data)%py.

Definition name (self : t) : result pyval :=
  (n <~ dict_getitem (_body self) "name" ;;
   py_concat n " Heater")%result.

Definition temperature_unit (self : t) : temperature_units :=
  if py_eq (_units self) (VInt 0) then TEMP_FAHRENHEIT else TEMP_CELSIUS.

End Entity.

End Climate.

(** ** light.py *)

Module CircuitLight.

(** The members of [PoolEquipmentClass] that the module names. *)
Inductive PoolEquipmentClass : Type :=
| LIGHT
| LIGHT_GROUP.

Definition ATTR_EFFECT : string := "effect".

(** [LightEntityFeature] is an integer flag: [EFFECT] is bit 2 and
    [LightEntityFeature(0)] is the empty flag. *)
Definition LightEntityFeature_EFFECT : Z := 4.
Definition LightEntityFeature_0 : Z := 0.

(** [equipment_id] and [equipment_class] are the attributes that the base
    class [PoolEquipmentEntity] keeps for the subject ([entity.py] is not
    among the sources). *)
Record t : Type := {
  equipment_id : pyval;
  equipment_class : PoolEquipmentClass;
  _event : string;
  _command : string;
  _lightthemes : table pyval;
  _value : pyval;
  _available : pyval;
  _lighting_theme : pyval
}.

Definition set_value (self : t) (v : pyval) : t :=
  {| equipment_id := equipment_id self;
     equipment_class := equipment_class self;
     _event := _event self;
     _command := _command self;
     _lightthemes := _lightthemes self;
     _value := v;
     _available := _available self;
     _lighting_theme := _lighting_theme self |}.

Definition set_available (self : t) (v : pyval) : t :=
  {| equipment_id := equipment_id self;
     equipment_class := equipment_class self;
     _event := _event self;
     _command := _command self;
     _lightthemes := _lightthemes self;
     _value := _value self;
     _available := v;
     _lighting_theme := _lighting_theme self |}.

Definition set_lighting_theme (self : t) (v : pyval) : t :=
  {| equipment_id := equipment_id self;
     equipment_class := equipment_class self;
     _event := _event self;
     _command := _command self;
     _lightthemes := _lightthemes self;
     _value := _value self;
     _available := _available self;
     _lighting_theme := v |}.

Section Entity.
Variable K : constants.
Variable transport : string -> pydict -> option exn.

(** [__init__]; [id] is what the base class stores as
    [equipment_id] for [circuit]. *)
Definition init (id : pyval) (cls : PoolEquipmentClass)
    (circuit : pydict) (lightthemes : table pyval) : result t :=
  let event :=
    match cls with
    | LIGHT => EVENT_CIRCUIT K
    | LIGHT_GROUP => EVENT_LIGHTGROUP K
    end in
  let command :=
    match cls with
    | LIGHT => API_CIRCUIT_SETSTATE K
    | LIGHT_GROUP => API_LIGHTGROUP_SETSTATE K
    end in
  (value <~ (if dict_contains circuit "isOn"
             then dict_getitem circuit "isOn" else Ok VNone) ;;
   theme <~ (if dict_contains circuit "lightingTheme"
             then lt <~ dict_getitem circuit "lightingTheme" ;;
                  getitem lt "val"
             else Ok VNone) ;;
   Ok {| equipment_id := id;
         equipment_class := cls;
         _event := event;
         _command := command;
         _lightthemes := lightthemes;
         _value := value;
         _available := VBool true;
         _lighting_theme := theme |})%result.

Definition _handle_coordinator_update (data : pydict) : M t unit :=
  (self <- get ;;
   kind <- lift (dict_getitem data "event") ;;
   mine <- (if py_eq kind (VStr (_event self)) then
              id <- lift (dict_getitem data "id") ;;
              ret (py_eq id (equipment_id self))
            else ret false) ;;
   if mine : bool then
     (if dict_contains data "isOn" then
        v <- lift (dict_getitem data "isOn") ;;
        self <- get ;;
        put (set_value self v)
      else ret tt) ;;
     (if dict_contains data "lightingTheme" then
        lt <- lift (dict_getitem data "lightingTheme") ;;
        v <- lift (getitem lt "val") ;;
        self <- get ;;
        put (set_lighting_theme self v)
      else ret tt) ;;
     async_write_ha_state
   else
     kind <- lift (dict_getitem data "event") ;;
     if py_eq kind (VStr (EVENT_AVAILABILITY K)) then
       v <- lift (dict_getitem data "available") ;;
       self <- get ;;
       put (set_available self v) ;;
       async_write_ha_state
     else ret tt)%py.

(** The last two statements of [async_turn_on]. *)
Definition turn_on_state : M t unit :=
  (self <- get ;;
   let data := [ ("id", equipment_id self); ("state", VBool true) ] in
   api_command transport (_command self) data)%py.

Definition async_turn_on (kwargs : pydict) : M t unit :=
  (self <- get ;;
   if dict_contains kwargs ATTR_EFFECT then
     if 0 <? Z.of_nat (List.length (_lightthemes self)) then
       effect <- lift (dict_getitem kwargs ATTR_EFFECT) ;;
       let njspc_value := next_key (_lightthemes self) effect in
       if is_none njspc_value then
         logger_error "Invalid theme for colorlogic light: %s" effect
       else
         let data :=
           [ ("id", equipment_id self); ("theme", njspc_value) ] in
         api_command transport (API_CIRCUIT_SETTHEME K) data
     else turn_on_state
   else turn_on_state)%py.

Definition async_turn_off (kwargs : pydict) : M t unit :=
  (self <- get ;;
   let data := [ ("id", equipment_id self); ("state", VBool false) ] in
   api_command transport (_command self) data)%py.

Definition available (self : t) : pyval := _available self.

Definition is_on (self : t) : result pyval :=
  Ok (_value self).

Definition effect (self : t) : result pyval :=
  (known <~ table_contains (_lightthemes self) (_lighting_theme self) ;;
   if known : bool then
     table_getitem (_lightthemes self) (_lighting_theme self)
   else Ok VNone)%result.

Definition effect_list (self : t) : pyval :=
  if 0 <? Z.of_nat (List.length (_lightthemes self)) then
    VList (table_values (_lightthemes self))
  else VNone.

Definition supported_features (self : t) : Z :=
  if 0 <? Z.of_nat (List.length (_lightthemes self)) then
    LightEntityFeature_EFFECT
  else LightEntityFeature_0.

End Entity.

End CircuitLight.

(** ** sensor.py *)

(** [round(x, 1)]: an [int] rounds to itself, a [bool] to its integer
    value, and the other values have no [__round__]. *)
Definition py_round1 (v : pyval) : result pyval :=
  match v with
  | VInt z => Ok (VInt z)
  | VBool b => Ok (VInt (Z.b2z b))
  | _ => Raise TypeError
  end.

Module TempSensor.

Record t : Type := {
  _key : string;
  _units : pyval;
  _value : pyval
}.

Definition set_value (self : t) (v : pyval) : t :=
  {| _key := _key self; _units := _units self; _value := v |}.

Section Entity.
Variable K : constants.

(** [temps] is [coordinator.api._config["temps"]]. *)
Definition init (temps : pydict) (key : string) (units : pyval) : result t :=
  (raw <~ dict_getitem temps key ;;
   v <~ py_round1 raw ;;
   Ok {| _key := key; _units := units; _value := v |})%result.

Definition _handle_coordinator_update (data : pydict) : M t unit :=
  (self <- get ;;
   kind <- lift (dict_getitem data "event") ;;
   if py_eq kind (VStr (EVENT_TEMPS K)) then
     raw <- lift (dict_getitem data (_key self)) ;;
     v <- lift (py_round1 raw) ;;
     put (set_value self v) ;;
     async_write_ha_state
   else ret tt)%py.

Definition native_value (self : t) : pyval := _value self.

Definition name (self : t) : string := ("njspc_" ++ _key self)%string.

Definition native_unit_of_measurement (self : t) : temperature_units :=
  if py_eq (_units self) (VStr "F") then TEMP_FAHRENHEIT else TEMP_CELSIUS.

End Entity.

End TempSensor.

Module RPMSensor.

Record t : Type := {
  _pump : pydict;
  _value : pyval
}.

Definition set_value (self : t) (v : pyval) : t :=
  {| _pump := _pump self; _value := v |}.

Section Entity.
Variable K : constants.

Definition init (pump : pydict) : result t :=
  (v <~ dict_getitem pump "rpm" ;;
   Ok {| _pump := pump; _value := v |})%result.

Definition _handle_coordinator_update (data : pydict) : M t unit :=
  (self <- get ;;
   kind <- lift (dict_getitem data "event") ;;
   mine <- (if py_eq kind (VStr (EVENT_PUMP K)) then
              id <- lift (dict_getitem data "id") ;;
              own <- lift (dict_getitem (_pump self) "id") ;;
              ret (py_eq id own)
            else ret false) ;;
   if mine : bool then
     v <- lift (dict_getitem data "rpm") ;;
     put (set_value self v) ;;
     async_write_ha_state
   else ret tt)%py.

Definition native_value (self : t) : pyval := _value self.

Definition name (self : t) : result pyval :=
  (n <~ dict_getitem (_pump self) "name" ;;
   py_concat n " RPM")%result.

Definition extra_state_attributes (self : t) : result pydict :=
  (lo <~ dict_getitem (_pump self) "minSpeed" ;;
   hi <~ dict_getitem (_pump self) "maxSpeed" ;;
   Ok [ ("min_speed", lo); ("max_speed", hi) ])%result.

End Entity.

End RPMSensor.

Module PowerSensor.

Record t : Type := {
  _pump : pydict;
  _value : pyval
}.

Definition set_value (self : t) (v : pyval) : t :=
  {| _pump := _pump self; _value := v |}.

Section Entity.
Variable K : constants.

Definition init (pump : pydict) : result t :=
  (v <~ dict_getitem pump "watts" ;;
   Ok {| _pump := pump; _value := v |})%result.

Definition _handle_coordinator_update (data : pydict) : M t unit :=
  (self <- get ;;
   kind <- lift (dict_getitem data "event") ;;
   mine <- (if py_eq kind (VStr (EVENT_PUMP K)) then
              id <- lift (dict_getitem data "id") ;;
              own <- lift (dict_getitem (_pump self) "id") ;;
              ret (py_eq id own)
            else ret false) ;;
   if mine : bool then
     v <- lift (dict_getitem data "watts") ;;
     put (set_value self v) ;;
     async_write_ha_state
   else ret tt)%py.

Definition native_value (self : t) : pyval := _value self.

Definition name (self : t) : result pyval :=
  (n <~ dict_getitem (_pump self) "name" ;;
   py_concat n " Watts")%result.

End Entity.

End PowerSensor.

Module SaltSensor.

Record t : Type := {
  _chlorinator : pydict;
  _value : pyval
}.

Definition set_chlorinator (self : t) (c : pydict) : t :=
  {| _chlorinator := c; _value := _value self |}.

Section Entity.
Variable K : constants.

Definition init (chlorinator : pydict) : result t :=
  (v <~ dict_getitem chlorinator "saltLevel" ;;
   Ok {| _chlorinator := chlorinator; _value := v |})%result.

Definition _handle_coordinator_update (data : pydict) : M t unit :=
  (self <- get ;;
   kind <- lift (dict_getitem data "event") ;;
   mine <- (if py_eq kind (VStr (EVENT_CHLORINATOR K)) then
              id <- lift (dict_getitem data "id") ;;
              own <- lift (dict_getitem (_chlorinator self) "id") ;;
              ret (py_eq id own)
            else ret false) ;;
   if mine : bool then
     put (set_chlorinator self data) ;;
     async_write_ha_state
   else ret tt)%py.

Definition native_value (self : t) : result pyval :=
  dict_getitem (_chlorinator self) "saltLevel".

Definition name (self : t) : result pyval :=
  (n <~ dict_getitem (_chlorinator self) "name" ;;
   py_concat n " Salt Level")%result.

Definition extra_state_attributes (self : t) : result pydict :=
  (target <~ dict_getitem (_chlorinator self) "saltTarget" ;;
   required <~ dict_getitem (_chlorinator self) "saltRequired" ;;
   Ok [ ("salt_target", target); ("salt_required", required) ])%result.

End Entity.

End SaltSensor.

Module StatusSensor.

Record t : Type := {
  _equipment : pydict;
  _event : string
}.

Definition set_equipment (self : t) (e : pydict) : t :=
  {| _equipment := e; _event := _event self |}.

Definition init (equipment : pydict) (event : string) : t :=
  {| _equipment := equipment; _event := event |}.

Definition _handle_coordinator_update (data : pydict) : M t unit :=
  (self <- get ;;
   kind <- lift (dict_getitem data "event") ;;
   mine <- (if py_eq kind (VStr (_event self)) then
              id <- lift (dict_getitem data "id") ;;
              own <- lift (dict_getitem (_equipment self) "id") ;;
              ret (py_eq id own)
            else ret false) ;;
   if mine : bool then
     put (set_equipment self data) ;;
     async_write_ha_state
   else ret tt)%py.

Definition native_value (self : t) : result pyval :=
  (st <~ dict_getitem (_equipment self) "status" ;;
   getitem st "desc")%result.

Definition name (self : t) : result pyval :=
  (n <~ dict_getitem (_equipment self) "name" ;;
   py_concat n " Status")%result.

Definition icon (self : t) : result string :=
  (st <~ dict_getitem (_equipment self) "status" ;;
   desc <~ getitem st "desc" ;;
   if py_ne desc (VStr "Ok") then Ok "mdi:alert-circle"
   else Ok "mdi:check-circle")%result.

End StatusSensor.

(** ** The coordinator's view: one event, any entity *)

Inductive adapter : Type :=
| AClimate (e : Climate.t)
| ALight (e : CircuitLight.t)
| ATemp (e : TempSensor.t)
| ARPM (e : RPMSensor.t)
| APower (e : PowerSensor.t)
| ASalt (e : SaltSensor.t)
| AStatus (e : StatusSensor.t).

Definition rewrap {S A} (wrap : S -> adapter)
    (o : S * list effect * result A) : adapter * list effect * result A :=
  (wrap (final_state o), trace o, outcome o).

Section Coordinator.
Variable K : constants.

(** The coordinator sets [coordinator.data] to the event and calls the
    entity's [_handle_coordinator_update]. *)
Definition deliver (data : pydict) (a : adapter)
    : adapter * list effect * result unit :=
  match a with
  | AClimate e => rewrap AClimate (Climate._handle_coordinator_update K data e)
  | ALight e => rewrap ALight (CircuitLight._handle_coordinator_update K data e)
  | ATemp e => rewrap ATemp (TempSensor._handle_coordinator_update K data e)
  | ARPM e => rewrap ARPM (RPMSensor._handle_coordinator_update K data e)
  | APower e => rewrap APower (PowerSensor._handle_coordinator_update K data e)
  | ASalt e => rewrap ASalt (SaltSensor._handle_coordinator_update K data e)
  | AStatus e => rewrap AStatus (StatusSensor._handle_coordinator_update data e)
  end.

(** The event kind an entity compares [data["event"]] with. *)
Definition expected_kind (a : adapter) : string :=
  match a with
  | AClimate _ => EVENT_BODY K
  | ALight e => CircuitLight._event e
  | ATemp _ => EVENT_TEMPS K
  | ARPM _ => EVENT_PUMP K
  | APower _ => EVENT_PUMP K
  | ASalt _ => EVENT_CHLORINATOR K
  | AStatus e => StatusSensor._event e
  end.

(** The subject id an entity compares [data["id"]] with; a temperature
    sensor is bound to a key of the [temps] record and has none. *)
Definition subject_id (a : adapter) : option pyval :=
  match a with
  | AClimate e => assoc "id" (Climate._body e)
  | ALight e => Some (CircuitLight.equipment_id e)
  | ATemp _ => None
  | ARPM e => assoc "id" (RPMSensor._pump e)
  | APower e => assoc "id" (PowerSensor._pump e)
  | ASalt e => assoc "id" (SaltSensor._chlorinator e)
  | AStatus e => assoc "id" (StatusSensor._equipment e)
  end.

Definition kind_is (data : pydict) (kind : string) : bool :=
  match assoc "event" data with
  | Some k => py_eq k (VStr kind)
  | None => false
  end.

Definition id_is (data : pydict) (own : option pyval) : bool :=
  match assoc "id" data, own with
  | Some i, Some o => py_eq i o
  | _, _ => false
  end.

Definition is_temp (a : adapter) : bool :=
  match a with
  | ATemp _ => true
  | _ => false
  end.

Definition is_light (a : adapter) : bool :=
  match a with
  | ALight _ => true
  | _ => false
  end.

(** The event is the entity's own: kind and id agree. *)
Definition kind_and_id_match (data : pydict) (a : adapter) : bool :=
  kind_is data (expected_kind a) && id_is data (subject_id a).

(** The filter the handlers implement: as above, except that a
    temperature sensor has no id to compare. *)
Definition subscribed (data : pydict) (a : adapter) : bool :=
  kind_is data (expected_kind a) &&
  (is_temp a || id_is data (subject_id a)).

(** The availability branch, which only the light entity has. *)
Definition availability_applies (data : pydict) (a : adapter) : bool :=
  is_light a && kind_is data (EVENT_AVAILABILITY K).



End Coordinator.

(** The selection contract of the specification for a light and the effect
    label of a turn-on request. *)
Definition theme_selection_contract (K : constants)
    (transport : string -> pydict -> option exn)
    (self : CircuitLight.t) (label : pyval) : Prop :=
  let o := CircuitLight.async_turn_on K transport
             [(CircuitLight.ATTR_EFFECT, label)] self in
  ((exists k v, In (k, v) (CircuitLight._lightthemes self) /\
                py_eq v label = true) ->
   exists k,
     trace o = [Command (API_CIRCUIT_SETTHEME K)
                  [("id", CircuitLight.equipment_id self); ("theme", k)]])
  /\ ((forall k v, In (k, v) (CircuitLight._lightthemes self) ->
                   py_eq v label = false) ->
      trace o = [LogError "Invalid theme for colorlogic light: %s" label]
      /\ outcome o = Ok tt).

Definition is_command (e : effect) : bool :=
  match e with
  | Command _ _ => true
  | _ => false
  end.

(** The plain power-on command of a light. *)
Definition power_on (self : CircuitLight.t) : effect :=
  Command (CircuitLight._command self)
    [("id", CircuitLight.equipment_id self); ("state", VBool true)].

(** The effect contract of the specification for a turn-on request that
    names an effect: the outbound commands are exactly one theme-set
    command, and the power-on command is not among them. *)
Definition effect_supersedes_contract (K : constants)
    (transport : string -> pydict -> option exn)
    (self : CircuitLight.t) (kwargs : pydict) : Prop :=
  dict_contains kwargs CircuitLight.ATTR_EFFECT = true ->
  let o := CircuitLight.async_turn_on K transport kwargs self in
  (exists k,
     filter is_command (trace o) =
     [Command (API_CIRCUIT_SETTHEME K)
        [("id", CircuitLight.equipment_id self); ("theme", k)]])
  /\ ~ In (power_on self) (trace o).

(** One assignment of the constants, to run the entities on concrete
    events. *)
Definition njspc : constants :=
  {| EVENT_AVAILABILITY := "availability";
     EVENT_BODY := "body";
     EVENT_CHLORINATOR := "chlorinator";
     EVENT_CIRCUIT := "circuit";
     EVENT_LIGHTGROUP := "lightGroup";
     EVENT_PUMP := "pump";
     EVENT_TEMPS := "temps";
     API_CIRCUIT_SETSTATE := "state/circuit/setState";
     API_CIRCUIT_SETTHEME := "state/circuit/setTheme";
     API_LIGHTGROUP_SETSTATE := "state/lightGroup/setState" |}.

(** A transport that always delivers, and one that always fails. *)
Definition delivered : string -> pydict -> option exn := fun _ _ => None.
Definition unreachable : string -> pydict -> option exn :=
  fun _ _ => Some ClientError.

(** ** Platform set-up: [async_setup_entry] *)

(** [bool(v)] *)
Definition py_truthy (v : pyval) : bool :=
  match v with
  | VNone => false
  | VBool b => b
  | VInt z => negb (z =? 0)
  | VStr s => negb (String.eqb s "")
  | VList l => match l with [] => false | _ :: _ => true end
  | VDict d => match d with [] => false | _ :: _ => true end
  end.

(** [for x in v]: the elements of a list, the keys of an object, the
    characters of a string; the other values are not iterable. *)
Definition py_iter (v : pyval) : result (list pyval) :=
  match v with
  | VList l => Ok l
  | VDict d => Ok (map (fun kv => VStr (fst kv)) d)
  | VStr s =>
      Ok (map (fun c => VStr (String c EmptyString)) (list_ascii_of_string s))
  | _ => Raise TypeError
  end.

(** [isinstance(v, int)]; [bool] is a subclass of [int]. *)
Definition is_int (v : pyval) : bool :=
  match v with
  | VInt _ | VBool _ => true
  | _ => false
  end.

(** [isinstance(v, float)]: floating-point numbers are outside the model,
    so that no value is one. *)
Definition is_float (v : pyval) : bool := false.

(** [isinstance(v, int) or isinstance(v, float)] *)
Definition is_number (v : pyval) : bool := is_int v || is_float v.

(** [t[k] = v], which wants a hashable key. *)
Definition table_store {V} (t : table V) (k : pyval) (v : V)
    : result (table V) :=
  if hashable k then Ok (table_setitem t k v) else Raise TypeError.

(** [for mode in modes: acc[mode["val"]] = mode[desc]], continuing from
    [acc]; the right-hand side is evaluated before the key. *)
Fixpoint collect (desc : string) (modes : list pyval) (acc : table pyval)
    : result (table pyval) :=
  match modes with
  | [] => Ok acc
  | mode :: rest =>
      (label <~ getitem mode desc ;;
       code <~ getitem mode "val" ;;
       acc' <~ table_store acc code label ;;
       collect desc rest acc')%result
  end.

(** Every code of a table is hashable, as [table_store] sees to. *)
Definition keys_hashable (t : table pyval) : Prop :=
  forall k d, In (k, d) t -> hashable k = true.

(** Two entries of a table whose codes are not equal. *)
Definition codes_differ (a b : pyval * pyval) : Prop :=
  py_eq (fst a) (fst b) = false.

(** [try: body / except KeyError: handler] *)
Definition try_except_KeyError {A} (body handler : result A) : result A :=
  match body with
  | Raise KeyError => handler
  | _ => body
  end.

(** [if new_devices: async_add_entities(new_devices)]: what is handed to
    the platform, if anything. *)
Definition add_entities {A} (new_devices : list A) : option (list A) :=
  match new_devices with
  | [] => None
  | _ :: _ => Some new_devices
  end.

(** An object that has every one of the given fields. *)
Definition has_fields (fields : list string) (v : pyval) : Prop :=
  exists record,
    v = VDict record
    /\ forall f, In f fields -> exists x, assoc f record = Some x.

(** The value of a key of [temps] is a number. *)
Definition numeric_at (temps : pydict) (key : string) : bool :=
  match assoc key temps with
  | Some v => is_number v
  | None => false
  end.

Module ClimatePlatform.

Section Setup.
(** [coordinator.api.get_heatmodes], the asynchronous enumeration fetch of
    the API client. *)
Variable get_heatmodes : pyval -> result pyval.

(** The body of the [for body in ...] loop, then the rest of the loop. *)
Fixpoint add_bodies (units : pyval) (bodies : list pyval)
    (new_devices : list Climate.t) : result (list Climate.t) :=
  match bodies with
  | [] => Ok new_devices
  | body :: rest =>
      match body with
      | VDict record =>
          (id <~ dict_getitem record "id" ;;
           listed <~ get_heatmodes id ;;
           modes <~ py_iter listed ;;
           heatmodes <~ collect "desc" modes [] ;;
           add_bodies units rest
             (new_devices ++ [Climate.init record heatmodes units]))%result
      | _ => Raise TypeError
      end
  end.

(** What one pass of the loop makes of a body: an entity that caches the
    body record and the unit flag, with the table collected from what the
    API lists for the body's id. *)
Definition built_from (units : pyval) (body : pyval) (c : Climate.t) : Prop :=
  exists record id listed modes,
    body = VDict record
    /\ assoc "id" record = Some id
    /\ get_heatmodes id = Ok listed
    /\ py_iter listed = Ok modes
    /\ collect "desc" modes [] = Ok (Climate._heatmodes c)
    /\ Climate._body c = record
    /\ Climate._units c = units.

(** [config] is [coordinator.api._config]. *)
Definition async_setup_entry (config : pydict)
    : result (option (list Climate.t)) :=
  (temps <~ dict_getitem config "temps" ;;
   u <~ getitem temps "units" ;;
   units <~ getitem u "val" ;;
   temps <~ dict_getitem config "temps" ;;
   listed <~ getitem temps "bodies" ;;
   bodies <~ py_iter listed ;;
   new_devices <~ add_bodies units bodies [] ;;
   Ok (add_entities new_devices))%result.

End Setup.

End ClimatePlatform.

Module LightPlatform.

Section Setup.
Variable K : constants.

(** [DESC] of [const.py], which is not among the sources. *)
Variable DESC : string.

(** [coordinator.api.get_lightthemes]. *)
Variable get_lightthemes : pyval -> result pyval.

(** The constructor of the base class [PoolEquipmentEntity] ([entity.py]
    is not among the sources): the [equipment_id] it stores for the
    record, or the exception it raises. *)
Variable base_init : CircuitLight.PoolEquipmentClass -> pydict -> result pyval.

(** Fetching the themes of a circuit or group and building its entity. *)
Definition new_light (cls : CircuitLight.PoolEquipmentClass)
    (circuit : pyval) : result CircuitLight.t :=
  match circuit with
  | VDict record =>
      (id <~ dict_getitem record "id" ;;
       listed <~ get_lightthemes id ;;
       themes <~ py_iter listed ;;
       lightthemes <~ collect DESC themes [] ;;
       equipment_id <~ base_init cls record ;;
       CircuitLight.init K equipment_id cls record lightthemes)%result
  | _ => Raise TypeError
  end.

(** The [try] statement of the loop over the circuits: the light to append
    to [new_devices], if any.  [except KeyError: pass] leaves the list as it
    is; every other exception leaves the loop. *)
Definition light_of_circuit (circuit : pyval)
    : result (option CircuitLight.t) :=
  try_except_KeyError
    (ty <~ getitem circuit "type" ;;
     is_light <~ getitem ty "isLight" ;;
     if py_truthy is_light then
       light <~ new_light CircuitLight.LIGHT circuit ;;
       Ok (Some light)
     else Ok None)%result
    (Ok None).

Fixpoint add_circuits (circuits : list pyval)
    (new_devices : list CircuitLight.t) : result (list CircuitLight.t) :=
  match circuits with
  | [] => Ok new_devices
  | circuit :: rest =>
      (found <~ light_of_circuit circuit ;;
       add_circuits rest
         match found with
         | Some light => new_devices ++ [light]
         | None => new_devices
         end)%result
  end.

Fixpoint add_groups (groups : list pyval)
    (new_devices : list CircuitLight.t) : result (list CircuitLight.t) :=
  match groups with
  | [] => Ok new_devices
  | group :: rest =>
      (light <~ new_light CircuitLight.LIGHT_GROUP group ;;
       add_groups rest (new_devices ++ [light]))%result
  end.

(** [config] is [coordinator.api.get_config()]. *)
Definition async_setup_entry (config : pydict)
    : result (option (list CircuitLight.t)) :=
  (listed <~ dict_getitem config "circuits" ;;
   circuits <~ py_iter listed ;;
   new_devices <~ add_circuits circuits [] ;;
   listed <~ dict_getitem config "lightGroups" ;;
   groups <~ py_iter listed ;;
   new_devices <~ add_groups groups new_devices ;;
   Ok (add_entities new_devices))%result.

End Setup.

End LightPlatform.

Module SensorPlatform.

Section Setup.
Variable K : constants.

(** The loop over the keys of [temps], the object
    [coordinator.api._config["temps"]]. *)
Fixpoint add_temps (temps : pydict) (keys : list string)
    (new_devices : list adapter) : result (list adapter) :=
  match keys with
  | [] => Ok new_devices
  | key :: rest =>
      (v <~ dict_getitem temps key ;;
       if is_number v then
         u <~ dict_getitem temps "units" ;;
         units <~ getitem u "name" ;;
         sensor <~ TempSensor.init temps key units ;;
         add_temps temps rest (new_devices ++ [ATemp sensor])
       else add_temps temps rest new_devices)%result
  end.

Fixpoint add_pumps (pumps : list pyval) (new_devices : list adapter)
    : result (list adapter) :=
  match pumps with
  | [] => Ok new_devices
  | pump :: rest =>
      match pump with
      | VDict record =>
          (rpm <~ RPMSensor.init record ;;
           watts <~ PowerSensor.init record ;;
           add_pumps rest
             (new_devices
              ++ [ARPM rpm; APower watts;
                  AStatus (StatusSensor.init record (EVENT_PUMP K))]))%result
      | _ => Raise TypeError
      end
  end.

Fixpoint add_chlorinators (chlorinators : list pyval)
    (new_devices : list adapter) : result (list adapter) :=
  match chlorinators with
  | [] => Ok new_devices
  | chlorinator :: rest =>
      match chlorinator with
      | VDict record =>
          (salt <~ SaltSensor.init record ;;
           add_chlorinators rest
             (new_devices
              ++ [ASalt salt;
                  AStatus
                    (StatusSensor.init record (EVENT_CHLORINATOR K))]))%result
      | _ => Raise TypeError
      end
  end.

(** [async_setup_entry] for a configuration [config] whose [temps] entry is
    the object [temps]. *)
Definition async_setup_entry (temps : pydict) (config : pydict)
    : result (option (list adapter)) :=
  (new_devices <~ add_temps temps (map fst temps) [] ;;
   listed <~ dict_getitem config "pumps" ;;
   pumps <~ py_iter listed ;;
   new_devices <~ add_pumps pumps new_devices ;;
   listed <~ dict_getitem config "chlorinators" ;;
   chlorinators <~ py_iter listed ;;
   new_devices <~ add_chlorinators chlorinators new_devices ;;
   Ok (add_entities new_devices))%result.

End Setup.

End SensorPlatform.

(** ** A stream of events *)

(** The coordinator delivers its events one after the other.  What a
    handler assigned stays assigned when it raises, and the next event finds
    the entity as the handler left it. *)
Definition deliver_all (K : constants) (events : list pydict) (a : adapter)
    : adapter :=
  fold_left (fun a data => final_state (deliver K data a)) events a.

(** ** Sample records and events *)

Definition body_pool : pydict :=
  [ ("id", VInt 1); ("name", VStr "Pool");
    ("heatStatus", VDict [("val", VInt 3); ("desc", VStr "Cooling")]);
    ("heatMode", VDict [("val", VInt 2)]);
    ("type", VDict [("val", VInt 0)]) ].

Definition body_spa : pydict :=
  [ ("id", VInt 2); ("name", VStr "Spa");
    ("heatStatus", VDict [("val", VInt 5)]);
    ("heatMode", VDict [("val", VInt 7)]);
    ("type", VDict [("val", VInt 1)]) ].

Definition body_bare : pydict :=
  [ ("id", VInt 3); ("name", VStr "Pond") ].

Definition heatmodes_sample : table pyval :=
  [ (VInt 1, VStr "Off"); (VInt 2, VStr "Heater"); (VInt 3, VStr "Solar") ].

Definition themes_sample : table pyval :=
  [ (VInt 0, VStr "Off"); (VInt 4, VStr "Party") ].

Definition light_with (themes : table pyval) (theme : pyval) : CircuitLight.t :=
  {| CircuitLight.equipment_id := VInt 6;
     CircuitLight.equipment_class := CircuitLight.LIGHT;
     CircuitLight._event := EVENT_CIRCUIT njspc;
     CircuitLight._command := API_CIRCUIT_SETSTATE njspc;
     CircuitLight._lightthemes := themes;
     CircuitLight._value := VBool false;
     CircuitLight._available := VBool true;
     CircuitLight._lighting_theme := theme |}.

Definition rpm_sensor (id rpm : Z) : RPMSensor.t :=
  {| RPMSensor._pump :=
       [ ("id", VInt id); ("name", VStr "Filter pump"); ("rpm", VInt rpm) ];
     RPMSensor._value := VInt rpm |}.


Definition pump_event_rpm : pydict :=
  [ ("event", VStr "pump"); ("id", VInt 7); ("rpm", VInt 2200) ].

Definition pump_event_watts : pydict :=
  [ ("event", VStr "pump"); ("id", VInt 7); ("watts", VInt 120) ].

Definition temps_event : pydict :=
  [ ("event", VStr "temps"); ("id", VInt 99); ("air", VInt 80) ].


(** What the API lists as heat modes: the last entry repeats code 1, as
    [True == 1]. *)
Definition modes_listed : list pyval :=
  [ VDict [("val", VInt 1); ("desc", VStr "Off")];
    VDict [("val", VInt 2); ("desc", VStr "Heater")];
    VDict [("val", VBool true); ("desc", VStr "No heat")] ].

(** A configuration with two bodies, and an API that lists the same heat
    modes for each. *)
Definition climate_config : pydict :=
  [ ("temps",
     VDict [ ("units", VDict [("val", VInt 0); ("name", VStr "F")]);
             ("air", VInt 75);
             ("bodies", VList [VDict body_pool; VDict body_spa]) ]) ].

Definition heatmodes_api : pyval -> result pyval :=
  fun _ => Ok (VList modes_listed).

(** A [temps] record with one reading, and configurations with a complete
    pump and with a pump that reports no speed. *)
Definition temps_sample : pydict :=
  [ ("units", VDict [("val", VInt 0); ("name", VStr "F")]);
    ("air", VInt 75);
    ("bodies", VList []) ].

Definition pump_complete : pydict :=
  [ ("id", VInt 7); ("name", VStr "Filter pump");
    ("rpm", VInt 1500); ("watts", VInt 300) ].

Definition pump_relay : pydict :=
  [ ("id", VInt 8); ("name", VStr "Booster") ].

Definition sensor_config (pumps : list pyval) : pydict :=
  [ ("temps", VDict temps_sample);
    ("pumps", VList pumps);
    ("chlorinators", VList []) ].

Definition sensors_of_sample : list adapter :=
  [ ATemp {| TempSensor._key := "air";
             TempSensor._units := VStr "F";
             TempSensor._value := VInt 75 |};
    ARPM {| RPMSensor._pump := pump_complete;
            RPMSensor._value := VInt 1500 |};
    APower {| PowerSensor._pump := pump_complete;
              PowerSensor._value := VInt 300 |};
    AStatus (StatusSensor.init pump_complete "pump") ].

(** An API that lists two themes for every light, a base class that stores
    the [id] of the record, and circuits: a light, a pump, and a light
    whose record has no [id]. *)
Definition themes_api : pyval -> result pyval :=
  fun _ =>
    Ok (VList [ VDict [("val", VInt 0); ("desc", VStr "Off")];
                VDict [("val", VInt 4); ("desc", VStr "Party")] ]).

Definition base_id
    : CircuitLight.PoolEquipmentClass -> pydict -> result pyval :=
  fun _ record => dict_getitem record "id".

Definition circuit_light : pydict :=
  [ ("id", VInt 6); ("name", VStr "Pool light");
    ("type", VDict [("isLight", VBool true)]); ("isOn", VBool false) ].

Definition circuit_pump : pydict :=
  [ ("id", VInt 2); ("name", VStr "Pump");
    ("type", VDict [("isLight", VBool false)]) ].

Definition circuit_no_id : pydict :=
  [ ("name", VStr "Spa light"); ("type", VDict [("isLight", VBool true)]) ].

Definition light_config : pydict :=
  [ ("circuits", VList [VDict circuit_pump; VDict circuit_light]);
    ("lightGroups", VList []) ].

(** * Properties *)

(** ** Lookups *)

Lemma table_find_none {V} (t : table V) (k : pyval) :
  table_find t k = None <-> (forall k' v, In (k', v) t -> py_eq k' k = false).
Proof.
  induction t as [| [k0 v0] t IH]; simpl.
  - split; [intros _ k' v [] | reflexivity].
  - destruct (py_eq k0 k) eqn:E.
    + split; [discriminate |].
      intros H. rewrite (H k0 v0) in E by (left; reflexivity). discriminate.
    + rewrite IH. split.
      * intros H k' v [Heq | Hin]; [inversion Heq; subst; exact E | eauto].
      * intros H k' v Hin. apply (H k' v). right. exact Hin.
Qed.

Lemma try_except_ok {A} (body handler : result A) :
  (exists a, handler = Ok a) -> exists a, try_except body handler = Ok a.
Proof.
  intros [a Ha]. destruct body as [b | e]; simpl; eauto.
Qed.

Lemma string_eq_refl (s : string) : py_eq (VStr s) (VStr s) = true.
Proof. simpl. apply String.eqb_refl. Qed.

(** ** climate.py *)

(** C3.  The keys of [NJSPC_HVAC_ACTION_TO_HASS] are the codes 0, 1, 2, 3,
    4, 6, 8 and 128, and for each of them [hvac_action] returns the table's
    entry: OFF for 0 and 128, COOLING for 3 and 8, HEATING for 1, 2, 4 and
    6.  For a code that equals none of the eight, and when [heatStatus] or
    its [val] is absent, it returns [HVACAction.OFF]; it never raises. *)
Theorem hvac_action_table (self : Climate.t) :
  map fst Climate.NJSPC_HVAC_ACTION_TO_HASS
  = map VInt [0; 1; 2; 3; 4; 6; 8; 128]
  /\ (forall hs code,
         assoc "heatStatus" (Climate._body self) = Some (VDict hs) ->
         assoc "val" hs = Some (VInt code) ->
         (code = 0 \/ code = 128 ->
          table_find Climate.NJSPC_HVAC_ACTION_TO_HASS (VInt code)
          = Some Climate.OFF
          /\ Climate.hvac_action self = Ok Climate.OFF)
         /\ (code = 3 \/ code = 8 ->
             table_find Climate.NJSPC_HVAC_ACTION_TO_HASS (VInt code)
             = Some Climate.COOLING
             /\ Climate.hvac_action self = Ok Climate.COOLING)
         /\ (code = 1 \/ code = 2 \/ code = 4 \/ code = 6 ->
             table_find Climate.NJSPC_HVAC_ACTION_TO_HASS (VInt code)
             = Some Climate.HEATING
             /\ Climate.hvac_action self = Ok Climate.HEATING))
  /\ (forall hs v,
         assoc "heatStatus" (Climate._body self) = Some (VDict hs) ->
         assoc "val" hs = Some v ->
         (forall code, In code [0; 1; 2; 3; 4; 6; 8; 128] ->
                       py_eq (VInt code) v = false) ->
         Climate.hvac_action self = Ok Climate.OFF)
  /\ (assoc "heatStatus" (Climate._body self) = None ->
      Climate.hvac_action self = Ok Climate.OFF)
  /\ (forall hs e,
         assoc "heatStatus" (Climate._body self) = Some hs ->
         getitem hs "val" = Raise e ->
         Climate.hvac_action self = Ok Climate.OFF)
  /\ (exists a, Climate.hvac_action self = Ok a).
Proof.
  unfold Climate.hvac_action, dict_getitem.
  split; [reflexivity |].
  split; [| split; [| split; [| split]]].
  - intros hs code Hhs Hval.
    rewrite Hhs. simpl. unfold dict_getitem. rewrite Hval. simpl.
    split; [| split]; intros Hcode.
    + destruct Hcode as [Hc | Hc]; subst; split; reflexivity.
    + destruct Hcode as [Hc | Hc]; subst; split; reflexivity.
    + destruct Hcode as [Hc | [Hc | [Hc | Hc]]]; subst; split; reflexivity.
  - intros hs v Hhs Hval Hout.
    rewrite Hhs. simpl. unfold dict_getitem. rewrite Hval. simpl.
    unfold table_getitem.
    assert (Hnone : table_find Climate.NJSPC_HVAC_ACTION_TO_HASS v = None).
    { apply table_find_none. intros k a Hin.
      unfold Climate.NJSPC_HVAC_ACTION_TO_HASS in Hin. simpl in Hin.
      repeat (destruct Hin as [Hin | Hin];
              [inversion Hin; subst; apply Hout; simpl; tauto |]).
      contradiction. }
    rewrite Hnone. destruct (hashable v); reflexivity.
  - intros Habs. rewrite Habs. reflexivity.
  - intros hs e Hhs Hval. rewrite Hhs. simpl. rewrite Hval. reflexivity.
  - apply try_except_ok. eauto.
Qed.

Lemma hvac_action_table_witness :
  Climate.hvac_action (Climate.init body_pool heatmodes_sample (VInt 0))
  = Ok Climate.COOLING
  /\ Climate.hvac_action (Climate.init body_spa heatmodes_sample (VInt 0))
     = Ok Climate.OFF
  /\ Climate.hvac_action (Climate.init body_bare heatmodes_sample (VInt 0))
     = Ok Climate.OFF.
Proof.
  split; [| split].
  - apply (proj1 (proj2 (proj1 (proj2 (hvac_action_table
                    (Climate.init body_pool heatmodes_sample (VInt 0))))
             [("val", VInt 3); ("desc", VStr "Cooling")] 3
             eq_refl eq_refl))).
    left. reflexivity.
  - apply (proj1 (proj2 (proj2 (hvac_action_table
                    (Climate.init body_spa heatmodes_sample (VInt 0)))))
             [("val", VInt 5)] (VInt 5)).
    + reflexivity.
    + reflexivity.
    + intros code Hin. simpl in Hin.
      repeat (destruct Hin as [Hin | Hin]; [subst; reflexivity |]).
      contradiction.
  - apply (proj1 (proj2 (proj2 (proj2 (hvac_action_table
                    (Climate.init body_bare heatmodes_sample (VInt 0))))))).
    reflexivity.
Defined.

Lemma min_max_total (self : Climate.t) :
  (exists lo, Climate.min_temp self = Ok lo)
  /\ (exists hi, Climate.max_temp self = Ok hi).
Proof.
  split; apply try_except_ok; eauto.
Qed.

(** C4.  [min_temp] and [max_temp] return one of four fixed pairs, chosen
    by the body type ([type.val] equal to 0: pool, otherwise spa) and the
    unit flag (equal to 0: imperial, otherwise metric): pool imperial
    70/95, spa imperial 90/104, pool metric 21/35, spa metric 32/40.  When
    [type] or its [val] is absent the pool pair for the unit flag is
    returned; neither property raises. *)
Theorem temperature_range (self : Climate.t) :
  (forall ty v,
      assoc "type" (Climate._body self) = Some (VDict ty) ->
      assoc "val" ty = Some v ->
      (py_eq v (VInt 0) = true -> py_eq (Climate._units self) (VInt 0) = true ->
       Climate.min_temp self = Ok 70 /\ Climate.max_temp self = Ok 95)
      /\ (py_eq v (VInt 0) = false -> py_eq (Climate._units self) (VInt 0) = true ->
          Climate.min_temp self = Ok 90 /\ Climate.max_temp self = Ok 104)
      /\ (py_eq v (VInt 0) = true -> py_eq (Climate._units self) (VInt 0) = false ->
          Climate.min_temp self = Ok 21 /\ Climate.max_temp self = Ok 35)
      /\ (py_eq v (VInt 0) = false -> py_eq (Climate._units self) (VInt 0) = false ->
          Climate.min_temp self = Ok 32 /\ Climate.max_temp self = Ok 40))
  /\ ((assoc "type" (Climate._body self) = None
       \/ exists ty e, assoc "type" (Climate._body self) = Some ty
                       /\ getitem ty "val" = Raise e) ->
      (py_eq (Climate._units self) (VInt 0) = true ->
       Climate.min_temp self = Ok 70 /\ Climate.max_temp self = Ok 95)
      /\ (py_eq (Climate._units self) (VInt 0) = false ->
          Climate.min_temp self = Ok 21 /\ Climate.max_temp self = Ok 35))
  /\ (exists lo hi, Climate.min_temp self = Ok lo /\ Climate.max_temp self = Ok hi).
Proof.
  split; [| split].
  - intros ty v Hty Hval.
    unfold Climate.min_temp, Climate.max_temp, dict_getitem.
    rewrite Hty. simpl. unfold dict_getitem. rewrite Hval. simpl.
    split; [| split; [| split]]; intros Hv Hu; rewrite Hv, Hu; split; reflexivity.
  - intros Habs.
    unfold Climate.min_temp, Climate.max_temp, dict_getitem.
    destruct Habs as [Hnone | (ty & e & Hty & Hval)].
    + rewrite Hnone. simpl.
      split; intros Hu; rewrite Hu; split; reflexivity.
    + rewrite Hty. simpl. rewrite Hval. simpl.
      split; intros Hu; rewrite Hu; split; reflexivity.
  - destruct (min_max_total self) as [[lo Hlo] [hi Hhi]]. eauto.
Qed.

(** C8.  [preset_mode] returns the label that [_heatmodes] holds for the
    cached [heatMode.val] when that code is a key of the table; when
    [heatMode] or its [val] is absent, or the code is no key of the table,
    it returns ["Off"]; it never raises. *)
Theorem preset_mode_soft (self : Climate.t) :
  (forall hm v label,
      assoc "heatMode" (Climate._body self) = Some (VDict hm) ->
      assoc "val" hm = Some v ->
      hashable v = true ->
      table_find (Climate._heatmodes self) v = Some label ->
      Climate.preset_mode self = Ok label)
  /\ (forall hm v,
         assoc "heatMode" (Climate._body self) = Some (VDict hm) ->
         assoc "val" hm = Some v ->
         (forall k label, In (k, label) (Climate._heatmodes self) ->
                          py_eq k v = false) ->
         Climate.preset_mode self = Ok (VStr "Off"))
  /\ ((assoc "heatMode" (Climate._body self) = None
       \/ exists hm e, assoc "heatMode" (Climate._body self) = Some hm
                       /\ getitem hm "val" = Raise e) ->
      Climate.preset_mode self = Ok (VStr "Off"))
  /\ (exists label, Climate.preset_mode self = Ok label).
Proof.
  unfold Climate.preset_mode, dict_getitem.
  split; [| split; [| split]].
  - intros hm v label Hhm Hval Hh Hfind.
    rewrite Hhm. simpl. unfold dict_getitem. rewrite Hval. simpl.
    unfold table_getitem. rewrite Hh, Hfind. reflexivity.
  - intros hm v Hhm Hval Hout.
    rewrite Hhm. simpl. unfold dict_getitem. rewrite Hval. simpl.
    unfold table_getitem. apply table_find_none in Hout. rewrite Hout.
    destruct (hashable v); reflexivity.
  - intros [Hnone | (hm & e & Hhm & Hval)].
    + rewrite Hnone. reflexivity.
    + rewrite Hhm. simpl. rewrite Hval. reflexivity.
  - apply try_except_ok. eauto.
Qed.

(** C9.  [hvac_mode] is [HVAC_MODE_AUTO] and [hvac_modes] is the list with
    that one element, whatever the cached body holds, and
    [async_set_hvac_mode] returns for every argument without a command, a
    log entry or a change of the entity. *)
Theorem hvac_mode_is_auto (self : Climate.t) (hvac_mode : pyval) :
  Climate.hvac_mode self = Climate.HVAC_MODE_AUTO
  /\ Climate.hvac_modes self = [Climate.HVAC_MODE_AUTO]
  /\ Climate.async_set_hvac_mode hvac_mode self = (self, [], Ok tt).
Proof.
  repeat split.
Qed.

(** ** light.py *)

Lemma light_init_without_theme (K : constants) (id : pyval)
    (cls : CircuitLight.PoolEquipmentClass) (circuit : pydict)
    (themes : table pyval) :
  assoc "lightingTheme" circuit = None ->
  exists self,
    CircuitLight.init K id cls circuit themes = Ok self
    /\ CircuitLight._lighting_theme self = VNone
    /\ CircuitLight._lightthemes self = themes.
Proof.
  intros Habs. unfold CircuitLight.init, dict_contains, dict_getitem.
  rewrite Habs. destruct (assoc "isOn" circuit); simpl; eauto.
Qed.

(** C10.  [supported_features] is [LightEntityFeature.EFFECT] exactly when
    the theme table is non-empty (and the empty flag otherwise); with an
    empty theme table [effect_list] is [None], not an empty list; [effect]
    is [None] whenever the cached theme code equals no key of the theme
    table, in particular for a light built from a record without
    [lightingTheme], whose cached code is [None]. *)
Theorem light_effects (self : CircuitLight.t) :
  (CircuitLight.supported_features self = CircuitLight.LightEntityFeature_EFFECT
   <-> CircuitLight._lightthemes self <> [])
  /\ (CircuitLight._lightthemes self = [] ->
      CircuitLight.supported_features self = CircuitLight.LightEntityFeature_0
      /\ CircuitLight.effect_list self = VNone
      /\ CircuitLight.effect_list self <> VList [])
  /\ (hashable (CircuitLight._lighting_theme self) = true ->
      (forall k label, In (k, label) (CircuitLight._lightthemes self) ->
                       py_eq k (CircuitLight._lighting_theme self) = false) ->
      CircuitLight.effect self = Ok VNone)
  /\ (forall K id cls circuit,
         assoc "lightingTheme" circuit = None ->
         (forall k label, In (k, label) (CircuitLight._lightthemes self) ->
                          py_eq k VNone = false) ->
         exists fresh,
           CircuitLight.init K id cls circuit (CircuitLight._lightthemes self)
           = Ok fresh
           /\ CircuitLight.effect fresh = Ok VNone).
Proof.
  assert (Hcode : forall s : CircuitLight.t,
             hashable (CircuitLight._lighting_theme s) = true ->
             (forall k label, In (k, label) (CircuitLight._lightthemes s) ->
                 py_eq k (CircuitLight._lighting_theme s) = false) ->
             CircuitLight.effect s = Ok VNone).
  { intros s Hh Hout. unfold CircuitLight.effect, table_contains.
    apply table_find_none in Hout. rewrite Hh, Hout. reflexivity. }
  split; [| split; [| split]].
  - unfold CircuitLight.supported_features,
      CircuitLight.LightEntityFeature_EFFECT, CircuitLight.LightEntityFeature_0.
    destruct (CircuitLight._lightthemes self) as [| p t]; simpl.
    + split; [discriminate | congruence].
    + split; [discriminate | reflexivity].
  - intros Hempty.
    unfold CircuitLight.supported_features, CircuitLight.effect_list.
    rewrite Hempty. simpl. repeat split. discriminate.
  - apply Hcode.
  - intros K id cls circuit Habs Hout.
    destruct (light_init_without_theme K id cls circuit
                (CircuitLight._lightthemes self) Habs)
      as (fresh & Hinit & Htheme & Htable).
    exists fresh. split; [exact Hinit |].
    apply Hcode; rewrite Htheme; [reflexivity |].
    rewrite Htable. exact Hout.
Qed.

(** ** sensor.py *)

(** C7.  With [EVENT_PUMP] being ["pump"], the event
    [{event: "pump", id: 7, rpm: 2200}] makes an RPM sensor of pump 7 show
    2200 and write its state once; the same event leaves an RPM sensor of
    pump 8 as it was and writes no state. *)
Theorem rpm_scenario (K : constants) (s7 s8 : RPMSensor.t) :
  EVENT_PUMP K = "pump" ->
  assoc "id" (RPMSensor._pump s7) = Some (VInt 7) ->
  assoc "id" (RPMSensor._pump s8) = Some (VInt 8) ->
  let data := [("event", VStr "pump"); ("id", VInt 7); ("rpm", VInt 2200)] in
  let o7 := RPMSensor._handle_coordinator_update K data s7 in
  let o8 := RPMSensor._handle_coordinator_update K data s8 in
  RPMSensor.native_value (final_state o7) = VInt 2200
  /\ trace o7 = [WriteHaState]
  /\ outcome o7 = Ok tt
  /\ o8 = (s8, [], Ok tt).
Proof.
  intros Hk H7 H8 data o7 o8. subst data o7 o8.
  unfold RPMSensor._handle_coordinator_update, bind, get, lift, ret, put,
    async_write_ha_state, emit, dict_getitem.
  rewrite Hk, H7, H8. simpl. repeat split.
Qed.

(** C2 (the RPM sensor).  A pump event for the sensor's own pump that
    carries no [rpm] makes the handler raise [KeyError]; the displayed
    value stays and no state is written. *)
Theorem rpm_partial_event_raises (K : constants) (self : RPMSensor.t)
    (data : pydict) (id own : pyval) :
  assoc "event" data = Some (VStr (EVENT_PUMP K)) ->
  assoc "id" data = Some id ->
  assoc "id" (RPMSensor._pump self) = Some own ->
  py_eq id own = true ->
  assoc "rpm" data = None ->
  RPMSensor._handle_coordinator_update K data self = (self, [], Raise KeyError).
Proof.
  intros Hkind Hid Hown Heq Hrpm.
  unfold RPMSensor._handle_coordinator_update, bind, get, lift, ret,
    dict_getitem.
  rewrite Hkind, string_eq_refl, Hid, Hown. simpl.
  rewrite Heq, Hrpm. reflexivity.
Qed.

Lemma rpm_scenario_witness :
  RPMSensor.native_value
    (final_state
       (RPMSensor._handle_coordinator_update njspc pump_event_rpm
          (rpm_sensor 7 1500))) = VInt 2200
  /\ RPMSensor._handle_coordinator_update njspc pump_event_rpm
       (rpm_sensor 8 1500) = (rpm_sensor 8 1500, [], Ok tt).
Proof.
  pose proof (rpm_scenario njspc (rpm_sensor 7 1500) (rpm_sensor 8 1500)
                eq_refl eq_refl eq_refl) as H.
  simpl in H. destruct H as (Hv & _ & _ & H8).
  split; [exact Hv | exact H8].
Defined.

Lemma rpm_partial_event_raises_witness :
  RPMSensor._handle_coordinator_update njspc pump_event_watts
    (rpm_sensor 7 1500) = (rpm_sensor 7 1500, [], Raise KeyError).
Proof.
  apply (rpm_partial_event_raises njspc (rpm_sensor 7 1500) pump_event_watts
           (VInt 7) (VInt 7)); reflexivity.
Defined.

(** ** climate.py, continued: sample runs *)

Lemma temperature_range_witness :
  (Climate.min_temp (Climate.init body_spa heatmodes_sample (VInt 1)) = Ok 32
   /\ Climate.max_temp (Climate.init body_spa heatmodes_sample (VInt 1)) = Ok 40)
  /\ (Climate.min_temp (Climate.init body_bare heatmodes_sample (VInt 0)) = Ok 70
      /\ Climate.max_temp (Climate.init body_bare heatmodes_sample (VInt 0)) = Ok 95).
Proof.
  split.
  - apply (proj1 (temperature_range
                    (Climate.init body_spa heatmodes_sample (VInt 1)))
             [("val", VInt 1)] (VInt 1)); reflexivity.
  - apply (proj1 (proj2 (temperature_range
                    (Climate.init body_bare heatmodes_sample (VInt 0))))).
    + left. reflexivity.
    + reflexivity.
Defined.

Lemma preset_mode_soft_witness :
  Climate.preset_mode (Climate.init body_pool heatmodes_sample (VInt 0))
  = Ok (VStr "Heater")
  /\ Climate.preset_mode (Climate.init body_spa heatmodes_sample (VInt 0))
     = Ok (VStr "Off")
  /\ Climate.preset_mode (Climate.init body_bare heatmodes_sample (VInt 0))
     = Ok (VStr "Off").
Proof.
  split; [| split].
  - apply (proj1 (preset_mode_soft
                    (Climate.init body_pool heatmodes_sample (VInt 0)))
             [("val", VInt 2)] (VInt 2) (VStr "Heater")); reflexivity.
  - apply (proj1 (proj2 (preset_mode_soft
                    (Climate.init body_spa heatmodes_sample (VInt 0))))
             [("val", VInt 7)] (VInt 7)); try reflexivity.
    intros k label Hin. simpl in Hin.
    repeat (destruct Hin as [Hin | Hin];
            [inversion Hin; subst; reflexivity |]).
    contradiction.
  - apply (proj1 (proj2 (proj2 (preset_mode_soft
                    (Climate.init body_bare heatmodes_sample (VInt 0)))))).
    left. reflexivity.
Defined.

Lemma light_effects_witness :
  CircuitLight.effect (light_with themes_sample (VInt 9)) = Ok VNone
  /\ CircuitLight.effect_list (light_with [] VNone) = VNone.
Proof.
  split.
  - apply (proj1 (proj2 (proj2 (light_effects
                    (light_with themes_sample (VInt 9)))))).
    + reflexivity.
    + intros k label Hin. simpl in Hin.
      repeat (destruct Hin as [Hin | Hin];
              [inversion Hin; subst; reflexivity |]).
      contradiction.
  - apply (proj1 (proj2 (light_effects (light_with [] VNone)))).
    reflexivity.
Defined.

(** ** Selecting a label *)

Lemma next_key_found (t : table pyval) (label : pyval) :
  (exists k v, In (k, v) t /\ py_eq v label = true) ->
  exists code v,
    In (code, v) t /\ py_eq v label = true /\ next_key t label = code.
Proof.
  induction t as [| [k0 v0] t IH]; intros (k & v & Hin & Heq).
  - destruct Hin.
  - simpl. destruct (py_eq v0 label) eqn:E.
    + exists k0, v0. repeat split; [left; reflexivity | exact E].
    + destruct Hin as [Hhd | Htl].
      * inversion Hhd; subst. congruence.
      * destruct IH as (code & v' & Hin' & Heq' & Hnext); [eauto |].
        exists code, v'. repeat split; [right; exact Hin' | exact Heq' | exact Hnext].
Qed.

Lemma next_key_missing (t : table pyval) (label : pyval) :
  (forall k v, In (k, v) t -> py_eq v label = false) ->
  next_key t label = VNone.
Proof.
  induction t as [| [k0 v0] t IH]; intros Hall; simpl.
  - reflexivity.
  - rewrite (Hall k0 v0) by (left; reflexivity).
    apply IH. intros k v Hin. apply (Hall k v). right. exact Hin.
Qed.

Lemma is_none_false (v : pyval) : v <> VNone -> is_none v = false.
Proof. destruct v; simpl; congruence. Qed.

Lemma nonempty_length {A} (l : list A) :
  l <> [] -> (0 <? Z.of_nat (List.length l)) = true.
Proof.
  destruct l; [congruence | intros _; reflexivity].
Qed.

Section Selection.
Variable K : constants.
Variable transport : string -> pydict -> option exn.

Lemma set_preset_found (c : Climate.t) (label id : pyval) :
  assoc "id" (Climate._body c) = Some id ->
  (exists k v, In (k, v) (Climate._heatmodes c) /\ py_eq v label = true) ->
  (forall k v, In (k, v) (Climate._heatmodes c) -> k <> VNone) ->
  exists code v,
    In (code, v) (Climate._heatmodes c) /\ py_eq v label = true
    /\ Climate.async_set_preset_mode transport label c
       = (c, [Command "state/body/heatMode" [("id", id); ("mode", code)]],
          transport_result transport "state/body/heatMode"
            [("id", id); ("mode", code)]).
Proof.
  intros Hid Hsome Hcodes.
  destruct (next_key_found _ _ Hsome) as (code & v & Hin & Heq & Hnext).
  exists code, v. repeat split; [exact Hin | exact Heq |].
  unfold Climate.async_set_preset_mode, bind, get, lift, api_command,
    dict_getitem.
  rewrite Hnext, (is_none_false code (Hcodes code v Hin)), Hid.
  reflexivity.
Qed.

Lemma set_preset_missing (c : Climate.t) (label : pyval) :
  (forall k v, In (k, v) (Climate._heatmodes c) -> py_eq v label = false) ->
  Climate.async_set_preset_mode transport label c
  = (c, [LogError "Invalid mode for set_hvac_mode: %s" label], Ok tt).
Proof.
  intros Hnone.
  unfold Climate.async_set_preset_mode, bind, get, logger_error, emit.
  rewrite (next_key_missing _ _ Hnone). reflexivity.
Qed.

Lemma turn_on_found (l : CircuitLight.t) (kwargs : pydict) (label : pyval) :
  assoc CircuitLight.ATTR_EFFECT kwargs = Some label ->
  (exists k v, In (k, v) (CircuitLight._lightthemes l)
               /\ py_eq v label = true) ->
  (forall k v, In (k, v) (CircuitLight._lightthemes l) -> k <> VNone) ->
  exists code v,
    In (code, v) (CircuitLight._lightthemes l) /\ py_eq v label = true
    /\ CircuitLight.async_turn_on K transport kwargs l
       = (l, [Command (API_CIRCUIT_SETTHEME K)
                [("id", CircuitLight.equipment_id l); ("theme", code)]],
          transport_result transport (API_CIRCUIT_SETTHEME K)
            [("id", CircuitLight.equipment_id l); ("theme", code)]).
Proof.
  intros Heff Hsome Hcodes.
  destruct (next_key_found _ _ Hsome) as (code & v & Hin & Heq & Hnext).
  exists code, v. repeat split; [exact Hin | exact Heq |].
  unfold CircuitLight.async_turn_on, bind, get, lift, api_command,
    dict_contains, dict_getitem.
  rewrite Heff, nonempty_length
    by (intros Hnil; rewrite Hnil in Hin; destruct Hin).
  rewrite Hnext, (is_none_false code (Hcodes code v Hin)).
  reflexivity.
Qed.

Lemma turn_on_missing (l : CircuitLight.t) (kwargs : pydict) (label : pyval) :
  assoc CircuitLight.ATTR_EFFECT kwargs = Some label ->
  CircuitLight._lightthemes l <> [] ->
  (forall k v, In (k, v) (CircuitLight._lightthemes l) ->
               py_eq v label = false) ->
  CircuitLight.async_turn_on K transport kwargs l
  = (l, [LogError "Invalid theme for colorlogic light: %s" label], Ok tt).
Proof.
  intros Heff Hne Hnone.
  unfold CircuitLight.async_turn_on, bind, get, lift, logger_error, emit,
    dict_contains, dict_getitem.
  rewrite Heff, (nonempty_length _ Hne), (next_key_missing _ _ Hnone).
  reflexivity.
Qed.

Lemma turn_on_no_themes (l : CircuitLight.t) (kwargs : pydict) :
  CircuitLight._lightthemes l = [] ->
  CircuitLight.async_turn_on K transport kwargs l
  = (l, [power_on l],
     transport_result transport (CircuitLight._command l)
       [("id", CircuitLight.equipment_id l); ("state", VBool true)]).
Proof.
  intros Hnil.
  unfold CircuitLight.async_turn_on, CircuitLight.turn_on_state, bind, get,
    api_command, power_on.
  rewrite Hnil. simpl.
  destruct (dict_contains kwargs CircuitLight.ATTR_EFFECT); reflexivity.
Qed.

(** Whatever the theme table of a light with themes holds, a request with
    an effect does not reach the power-on statement. *)
Lemma turn_on_effect_no_power_on (l : CircuitLight.t) (kwargs : pydict)
    (label : pyval) :
  assoc CircuitLight.ATTR_EFFECT kwargs = Some label ->
  CircuitLight._lightthemes l <> [] ->
  ~ In (power_on l) (trace (CircuitLight.async_turn_on K transport kwargs l)).
Proof.
  intros Heff Hne.
  unfold CircuitLight.async_turn_on, bind, get, lift, api_command,
    logger_error, emit, dict_contains, dict_getitem, power_on.
  rewrite Heff, (nonempty_length _ Hne).
  destruct (is_none (next_key (CircuitLight._lightthemes l) label));
    simpl; intros [Hin | []]; discriminate.
Qed.

End Selection.

(** C5.  A preset or theme label is looked up in the code->label table.
    When a code maps to the label (no code being [None], and the climate
    body having an [id]), exactly one command [{id, mode: code}]
    (climate) or [{id, theme: code}] (light) is sent and nothing is logged.
    When no code maps to it, the climate entity, and the light whose theme
    table is non-empty, send nothing, log one error and return normally.
    A light whose theme table is empty does not look the label up: it sends
    the plain power-on command and logs nothing. *)
Theorem label_selection (K : constants)
    (transport : string -> pydict -> option exn) :
  (forall (c : Climate.t) (label id : pyval),
      assoc "id" (Climate._body c) = Some id ->
      (exists k v, In (k, v) (Climate._heatmodes c) /\ py_eq v label = true) ->
      (forall k v, In (k, v) (Climate._heatmodes c) -> k <> VNone) ->
      exists code v,
        In (code, v) (Climate._heatmodes c) /\ py_eq v label = true
        /\ Climate.async_set_preset_mode transport label c
           = (c, [Command "state/body/heatMode" [("id", id); ("mode", code)]],
              transport_result transport "state/body/heatMode"
                [("id", id); ("mode", code)]))
  /\ (forall (c : Climate.t) (label : pyval),
         (forall k v, In (k, v) (Climate._heatmodes c) -> py_eq v label = false) ->
         Climate.async_set_preset_mode transport label c
         = (c, [LogError "Invalid mode for set_hvac_mode: %s" label], Ok tt))
  /\ (forall (l : CircuitLight.t) (kwargs : pydict) (label : pyval),
         assoc CircuitLight.ATTR_EFFECT kwargs = Some label ->
         (exists k v, In (k, v) (CircuitLight._lightthemes l)
                      /\ py_eq v label = true) ->
         (forall k v, In (k, v) (CircuitLight._lightthemes l) -> k <> VNone) ->
         exists code v,
           In (code, v) (CircuitLight._lightthemes l) /\ py_eq v label = true
           /\ CircuitLight.async_turn_on K transport kwargs l
              = (l, [Command (API_CIRCUIT_SETTHEME K)
                       [("id", CircuitLight.equipment_id l); ("theme", code)]],
                 transport_result transport (API_CIRCUIT_SETTHEME K)
                   [("id", CircuitLight.equipment_id l); ("theme", code)]))
  /\ (forall (l : CircuitLight.t) (kwargs : pydict) (label : pyval),
         assoc CircuitLight.ATTR_EFFECT kwargs = Some label ->
         CircuitLight._lightthemes l <> [] ->
         (forall k v, In (k, v) (CircuitLight._lightthemes l) ->
                      py_eq v label = false) ->
         CircuitLight.async_turn_on K transport kwargs l
         = (l, [LogError "Invalid theme for colorlogic light: %s" label], Ok tt))
  /\ (forall (l : CircuitLight.t) (kwargs : pydict),
         CircuitLight._lightthemes l = [] ->
         CircuitLight.async_turn_on K transport kwargs l
         = (l, [power_on l],
            transport_result transport (CircuitLight._command l)
              [("id", CircuitLight.equipment_id l); ("state", VBool true)])).
Proof.
  split; [| split; [| split; [| split]]].
  - apply set_preset_found.
  - apply set_preset_missing.
  - apply turn_on_found.
  - apply turn_on_missing.
  - apply turn_on_no_themes.
Qed.

Lemma label_selection_witness :
  (exists code v,
      In (code, v) themes_sample /\ py_eq v (VStr "Party") = true
      /\ CircuitLight.async_turn_on njspc delivered [("effect", VStr "Party")]
           (light_with themes_sample VNone)
         = (light_with themes_sample VNone,
            [Command "state/circuit/setTheme" [("id", VInt 6); ("theme", code)]],
            Ok tt))
  /\ CircuitLight.async_turn_on njspc delivered [("effect", VStr "Unknown")]
       (light_with themes_sample VNone)
     = (light_with themes_sample VNone,
        [LogError "Invalid theme for colorlogic light: %s" (VStr "Unknown")],
        Ok tt)
  /\ (exists code v,
         In (code, v) heatmodes_sample /\ py_eq v (VStr "Solar") = true
         /\ Climate.async_set_preset_mode unreachable (VStr "Solar")
              (Climate.init body_pool heatmodes_sample (VInt 0))
            = (Climate.init body_pool heatmodes_sample (VInt 0),
               [Command "state/body/heatMode" [("id", VInt 1); ("mode", code)]],
               Raise ClientError)).
Proof.
  split; [| split].
  - apply (proj1 (proj2 (proj2 (label_selection njspc delivered)))
             (light_with themes_sample VNone) [("effect", VStr "Party")]
             (VStr "Party") eq_refl).
    + exists (VInt 4), (VStr "Party"). split; [simpl; tauto | reflexivity].
    + intros k v Hin. simpl in Hin.
      repeat (destruct Hin as [Hin | Hin]; [inversion Hin; discriminate |]).
      contradiction.
  - apply (proj1 (proj2 (proj2 (proj2 (label_selection njspc delivered))))
             (light_with themes_sample VNone) [("effect", VStr "Unknown")]
             (VStr "Unknown")).
    + reflexivity.
    + discriminate.
    + intros k v Hin. simpl in Hin.
      repeat (destruct Hin as [Hin | Hin];
              [inversion Hin; subst; reflexivity |]).
      contradiction.
  - apply (proj1 (label_selection njspc unreachable)
             (Climate.init body_pool heatmodes_sample (VInt 0))
             (VStr "Solar") (VInt 1) eq_refl).
    + exists (VInt 3), (VStr "Solar"). split; [simpl; tauto | reflexivity].
    + intros k v Hin. simpl in Hin.
      repeat (destruct Hin as [Hin | Hin]; [inversion Hin; discriminate |]).
      contradiction.
Defined.

(** C5, as the specification states it, fails for a light without themes:
    no code maps to ["Party"], and yet a command is sent and nothing is
    logged. *)
Lemma theme_selection_counterexample :
  ~ theme_selection_contract njspc delivered (light_with [] VNone) (VStr "Party").
Proof.
  unfold theme_selection_contract. intros [_ Hmissing].
  destruct Hmissing as [Htrace _].
  - intros k v [].
  - vm_compute in Htrace. discriminate.
Qed.

(** C6.  A turn-on request that names an effect never sends the plain
    power-on command when the light has themes: it sends only the theme-set
    command when a code (not [None]) maps to the effect, and no command at
    all when none does.  When the light has no themes the effect is ignored
    and the plain power-on command is sent. *)
Theorem effect_supersedes_power_on (K : constants)
    (transport : string -> pydict -> option exn)
    (l : CircuitLight.t) (kwargs : pydict) (label : pyval) :
  assoc CircuitLight.ATTR_EFFECT kwargs = Some label ->
  let o := CircuitLight.async_turn_on K transport kwargs l in
  (CircuitLight._lightthemes l <> [] ->
   ~ In (power_on l) (trace o)
   /\ ((exists k v, In (k, v) (CircuitLight._lightthemes l)
                    /\ py_eq v label = true) ->
       (forall k v, In (k, v) (CircuitLight._lightthemes l) -> k <> VNone) ->
       exists code,
         trace o = [Command (API_CIRCUIT_SETTHEME K)
                      [("id", CircuitLight.equipment_id l); ("theme", code)]])
   /\ ((forall k v, In (k, v) (CircuitLight._lightthemes l) ->
                    py_eq v label = false) ->
       filter is_command (trace o) = []))
  /\ (CircuitLight._lightthemes l = [] -> trace o = [power_on l]).
Proof.
  intros Heff o. subst o. split.
  - intros Hne. split; [| split].
    + apply (turn_on_effect_no_power_on K transport l kwargs label Heff Hne).
    + intros Hsome Hcodes.
      destruct (turn_on_found K transport l kwargs label Heff Hsome Hcodes)
        as (code & v & _ & _ & Hrun).
      exists code. rewrite Hrun. reflexivity.
    + intros Hnone.
      rewrite (turn_on_missing K transport l kwargs label Heff Hne Hnone).
      reflexivity.
  - intros Hnil.
    rewrite (turn_on_no_themes K transport l kwargs Hnil).
    reflexivity.
Qed.

Lemma effect_supersedes_power_on_witness :
  ~ In (power_on (light_with themes_sample VNone))
      (trace (CircuitLight.async_turn_on njspc delivered
                [("effect", VStr "Party")] (light_with themes_sample VNone)))
  /\ trace (CircuitLight.async_turn_on njspc delivered
              [("effect", VStr "Party")] (light_with [] VNone))
     = [power_on (light_with [] VNone)].
Proof.
  split.
  - apply (proj1 (effect_supersedes_power_on njspc delivered
                    (light_with themes_sample VNone)
                    [("effect", VStr "Party")] (VStr "Party") eq_refl)).
    discriminate.
  - apply (proj2 (effect_supersedes_power_on njspc delivered
                    (light_with [] VNone)
                    [("effect", VStr "Party")] (VStr "Party") eq_refl)).
    reflexivity.
Defined.

(** C6, as the specification states it, fails for a light without themes:
    the request names an effect and the power-on command is what is
    sent. *)
Lemma effect_supersedes_counterexample :
  ~ effect_supersedes_contract njspc delivered (light_with [] VNone)
      [("effect", VStr "Party")].
Proof.
  unfold effect_supersedes_contract. intros H.
  destruct (H eq_refl) as [_ Hnot].
  apply Hnot. vm_compute. left. reflexivity.
Qed.

(** ** Event filtering *)

Ltac unfold_handlers :=
  unfold deliver, rewrap, subscribed, availability_applies, kind_and_id_match,
    kind_is, id_is, expected_kind, subject_id, is_temp, is_light,
    Climate._handle_coordinator_update,
    CircuitLight._handle_coordinator_update,
    TempSensor._handle_coordinator_update,
    RPMSensor._handle_coordinator_update,
    PowerSensor._handle_coordinator_update,
    SaltSensor._handle_coordinator_update,
    StatusSensor._handle_coordinator_update,
    bind, get, put, lift, ret, async_write_ha_state, emit,
    dict_getitem, dict_contains, final_state, trace, outcome in *.

Ltac case_step :=
  match goal with
  | |- context [match assoc ?k ?d with _ => _ end] =>
      destruct (assoc k d) eqn:?
  | H : context [match assoc ?k ?d with _ => _ end] |- _ =>
      destruct (assoc k d) eqn:?
  | |- context [if py_eq ?x ?y then _ else _] =>
      destruct (py_eq x y) eqn:?
  | H : context [if py_eq ?x ?y then _ else _] |- _ =>
      destruct (py_eq x y) eqn:?
  | |- context [match getitem ?x ?k with _ => _ end] =>
      destruct (getitem x k) eqn:?
  | H : context [match getitem ?x ?k with _ => _ end] |- _ =>
      destruct (getitem x k) eqn:?
  | |- context [match py_round1 ?x with _ => _ end] =>
      destruct (py_round1 x) eqn:?
  | H : context [match py_round1 ?x with _ => _ end] |- _ =>
      destruct (py_round1 x) eqn:?
  end; simpl in *.

Ltac run_handler := unfold_handlers; simpl in *; repeat case_step.




(** The light merges field by field: a field the event does not carry keeps
    its cached value, whether the handler returns or raises, and an own
    event whose [lightingTheme], if any, has a [val] is handled without
    error. *)
Lemma light_merge_keeps_absent_fields (K : constants) (data : pydict)
    (self : CircuitLight.t) :
  let o := CircuitLight._handle_coordinator_update K data self in
  (assoc "isOn" data = None ->
   CircuitLight._value (final_state o) = CircuitLight._value self)
  /\ (assoc "lightingTheme" data = None ->
      CircuitLight._lighting_theme (final_state o)
      = CircuitLight._lighting_theme self)
  /\ (subscribed K data (ALight self) = true ->
      (assoc "lightingTheme" data = None
       \/ exists lt v, assoc "lightingTheme" data = Some (VDict lt)
                       /\ assoc "val" lt = Some v) ->
      outcome o = Ok tt /\ trace o = [WriteHaState]).
Proof.
  intros o. subst o. split; [| split].
  - intros Hon. run_handler; solve [reflexivity | discriminate].
  - intros Htheme. run_handler; solve [reflexivity | discriminate].
  - intros Hmine Hshape.
    destruct Hshape as [Hnone | (lt & v & Hlt & Hval)].
    + run_handler; solve [split; reflexivity | discriminate].
    + unfold_handlers. rewrite Hlt in *. simpl in *.
      unfold dict_getitem. rewrite Hval.
      repeat case_step; solve [split; reflexivity | discriminate].
Qed.

(** * More of the code *)

(** ** Equality of hashable values *)

Ltac eqb_to_eq :=
  repeat match goal with
  | H : Bool.eqb _ _ = true |- _ => apply Bool.eqb_prop in H
  | H : Z.eqb _ _ = true |- _ => apply Z.eqb_eq in H
  | H : String.eqb _ _ = true |- _ => apply String.eqb_eq in H
  end.

Lemma py_eq_hashable (a b : pyval) :
  hashable b = true -> py_eq a b = true ->
  hashable a = true /\ forall i, py_eq i a = py_eq i b.
Proof.
  intros Hb Hab.
  destruct a as [| x | x | x | x | x], b as [| y | y | y | y | y];
    simpl in *; try discriminate; split; try reflexivity; intros i;
    eqb_to_eq; subst; try reflexivity;
    destruct i as [| z | z | z | z | z]; simpl; try reflexivity;
    repeat match goal with b : bool |- _ => destruct b end; reflexivity.
Qed.

(** ** Streams of events *)

Ltac reuse_lookup :=
  match goal with
  | H : assoc ?k ?d = _ |- context [assoc ?k ?d] => rewrite H
  | H : py_eq ?x ?y = _ |- context [py_eq ?x ?y] => rewrite H
  end.

Ltac simple_dict d :=
  first [ is_var d | match d with ?f ?e => is_var e end ].

Ltac case_goal :=
  first
    [ reuse_lookup
    | match goal with
      | |- context [if py_eq ?x ?y then _ else _] =>
          is_var x; destruct (py_eq x y) eqn:?
      | |- context [match assoc ?k ?d with _ => _ end] =>
          simple_dict d; destruct (assoc k d) eqn:?
      | |- context [match getitem ?x ?k with _ => _ end] =>
          is_var x; destruct (getitem x k) eqn:?
      | |- context [match py_round1 ?x with _ => _ end] =>
          is_var x; destruct (py_round1 x) eqn:?
      end ];
  simpl.

Ltac unfold_goal :=
  unfold deliver, rewrap, subscribed, availability_applies, kind_and_id_match,
    kind_is, id_is, expected_kind, subject_id, is_temp, is_light,
    Climate._handle_coordinator_update,
    CircuitLight._handle_coordinator_update,
    TempSensor._handle_coordinator_update,
    RPMSensor._handle_coordinator_update,
    PowerSensor._handle_coordinator_update,
    SaltSensor._handle_coordinator_update,
    StatusSensor._handle_coordinator_update,
    bind, get, put, lift, ret, async_write_ha_state, emit,
    dict_getitem, dict_contains, final_state, trace, outcome.

Ltac run_goal := unfold_goal; simpl; repeat case_goal.

Lemma deliver_keeps_subscription (K : constants) (data : pydict) (a : adapter) :
  (forall id, subject_id a = Some id -> hashable id = true) ->
  let a' := final_state (deliver K data a) in
  expected_kind K a' = expected_kind K a
  /\ is_temp a' = is_temp a
  /\ is_light a' = is_light a
  /\ (forall id, subject_id a' = Some id -> hashable id = true)
  /\ (forall i, match subject_id a', subject_id a with
                | Some id', Some id => py_eq i id' = py_eq i id
                | None, None => True
                | _, _ => False
                end).
Proof.
  intros Hid a'. subst a'.
  assert (Hcong : forall id own,
             subject_id a = Some own -> py_eq id own = true ->
             hashable id = true /\ forall i, py_eq i id = py_eq i own).
  { intros id own Hown Heq.
    apply py_eq_hashable; [apply Hid; exact Hown | exact Heq]. }
  destruct a as [e | e | e | e | e | e | e]; simpl in Hid, Hcong.
  all: run_goal.
  all: repeat split; auto.
  all: try (intros id Hsome; inversion Hsome; subst id;
            eapply Hcong; [reflexivity | eassumption]).
  all: intros i; eapply Hcong; [reflexivity | eassumption].
Qed.

(** X1.  The subscription of an entity is stable.  When its subject id (if
    it has one) is hashable, then after any sequence of events, whether the
    handlers returned or raised, the entity accepts exactly the events it
    accepted at the start, and the availability branch applies to exactly
    the same events. *)
Theorem subscription_is_stable (K : constants) (events : list pydict)
    (a : adapter) :
  (forall id, subject_id a = Some id -> hashable id = true) ->
  forall data,
    subscribed K data (deliver_all K events a) = subscribed K data a
    /\ availability_applies K data (deliver_all K events a)
       = availability_applies K data a.
Proof.
  revert a. induction events as [| ev events IH]; intros a Hid data.
  - split; reflexivity.
  - simpl.
    destruct (deliver_keeps_subscription K ev a Hid)
      as (Hkind & Htemp & Hlight & Hid' & Hsame).
    destruct (IH _ Hid' data) as [IHs IHa].
    rewrite IHs, IHa.
    unfold subscribed, availability_applies.
    rewrite Hkind, Htemp, Hlight.
    split; [| reflexivity].
    f_equal. f_equal. unfold id_is.
    destruct (assoc "id" data) as [i |]; [| reflexivity].
    specialize (Hsame i).
    destruct (subject_id (final_state (deliver K ev a))),
      (subject_id a); try contradiction; [exact Hsame | reflexivity].
Qed.

Lemma subscription_is_stable_witness :
  subscribed njspc pump_event_rpm
    (deliver_all njspc [pump_event_watts; temps_event; pump_event_rpm]
       (ARPM (rpm_sensor 7 1500)))
  = subscribed njspc pump_event_rpm (ARPM (rpm_sensor 7 1500)).
Proof.
  apply (subscription_is_stable njspc
           [pump_event_watts; temps_event; pump_event_rpm]
           (ARPM (rpm_sensor 7 1500))).
  intros id Hid. inversion Hid. reflexivity.
Defined.

(** X2.  Whatever the event, a handler calls no collaborator but
    [async_write_ha_state], calls it at most once, and calls it only when
    it returns: an event never makes an entity send a command or log an
    error, and a handler that raises has requested no refresh. *)
Theorem handlers_only_refresh (K : constants) (data : pydict) (a : adapter) :
  trace (deliver K data a) = []
  \/ (trace (deliver K data a) = [WriteHaState]
      /\ outcome (deliver K data a) = Ok tt).
Proof.
  destruct a as [e | e | e | e | e | e | e].
  all: run_goal.
  all: solve [left; reflexivity | right; split; reflexivity].
Qed.

(** X3.  A handler that raises leaves every entity but the light as it
    was.  The light assigns [isOn] before it reads [lightingTheme]: when
    its handler raises, the entity is as it was except, possibly, for the
    on/off value taken from the event. *)
Theorem failed_handler_keeps_cache (K : constants) (data : pydict)
    (a : adapter) (e : exn) :
  outcome (deliver K data a) = Raise e ->
  (is_light a = false -> final_state (deliver K data a) = a)
  /\ (forall l, a = ALight l ->
        final_state (deliver K data a) = a
        \/ exists v, assoc "isOn" data = Some v
                     /\ final_state (deliver K data a)
                        = ALight (CircuitLight.set_value l v)).
Proof.
  destruct a as [c | c | c | c | c | c | c].
  all: run_goal.
  all: intros Hraise; try discriminate.
  all: split; [intros Hl; try discriminate; reflexivity |].
  all: intros l Hl; inversion Hl; subst; try discriminate.
  all: try (left; reflexivity).
  all: right; eexists; split; reflexivity.
Qed.

Lemma failed_handler_keeps_cache_witness :
  final_state (deliver njspc pump_event_watts (ARPM (rpm_sensor 7 1500)))
  = ARPM (rpm_sensor 7 1500).
Proof.
  apply (proj1 (failed_handler_keeps_cache njspc pump_event_watts
                  (ARPM (rpm_sensor 7 1500)) KeyError eq_refl)).
  reflexivity.
Defined.

(** ** Commands *)




(** ** Themes of a light *)

Lemma table_find_in {V} (t : table V) (k : pyval) (v : V) :
  table_find t k = Some v -> exists k', In (k', v) t /\ py_eq k' k = true.
Proof.
  induction t as [| [k0 v0] t IH]; simpl; [discriminate |].
  destruct (py_eq k0 k) eqn:E.
  - intros Hv. inversion Hv; subst. exists k0. split; [left; reflexivity | exact E].
  - intros Hv. destruct (IH Hv) as (k' & Hin & Heq).
    exists k'. split; [right; exact Hin | exact Heq].
Qed.

(** X5.  [effect] raises exactly when the cached theme code is unhashable
    (a list or an object), and then with [TypeError].  Otherwise it returns
    [None] or one of the labels that [effect_list] offers; it returns
    [None] for every code when the light has no themes. *)
Theorem effect_is_listed (self : CircuitLight.t) :
  (hashable (CircuitLight._lighting_theme self) = false ->
   CircuitLight.effect self = Raise TypeError)
  /\ (hashable (CircuitLight._lighting_theme self) = true ->
      exists v,
        CircuitLight.effect self = Ok v
        /\ (v = VNone
            \/ exists labels,
                 CircuitLight.effect_list self = VList labels /\ In v labels)
        /\ (CircuitLight._lightthemes self = [] -> v = VNone)).
Proof.
  unfold CircuitLight.effect, CircuitLight.effect_list, table_contains,
    table_getitem.
  split; intros Hh; rewrite Hh; simpl; [reflexivity |].
  destruct (table_find (CircuitLight._lightthemes self)
              (CircuitLight._lighting_theme self)) as [label |] eqn:Hfind;
    simpl.
  - exists label. split; [reflexivity |].
    destruct (table_find_in _ _ _ Hfind) as (k & Hin & _).
    split.
    + right. exists (table_values (CircuitLight._lightthemes self)).
      split.
      * destruct (CircuitLight._lightthemes self); [destruct Hin | reflexivity].
      * unfold table_values. apply (in_map snd _ _ Hin).
    + intros Hnil. rewrite Hnil in Hin. destruct Hin.
  - exists VNone. repeat split. left. reflexivity.
Qed.

Lemma effect_is_listed_witness :
  CircuitLight.effect (light_with themes_sample (VList [VInt 4]))
  = Raise TypeError
  /\ exists v,
       CircuitLight.effect (light_with themes_sample (VInt 4)) = Ok v
       /\ (v = VNone
           \/ exists labels,
                CircuitLight.effect_list (light_with themes_sample (VInt 4))
                = VList labels /\ In v labels)
       /\ (themes_sample = [] -> v = VNone).
Proof.
  split.
  - apply (proj1 (effect_is_listed
                    (light_with themes_sample (VList [VInt 4])))).
    reflexivity.
  - apply (proj2 (effect_is_listed (light_with themes_sample (VInt 4)))).
    reflexivity.
Defined.

(** X6.  An own event that carries [isOn] and a [lightingTheme] with a
    [val] makes [is_on] the event's value and caches the event's theme
    code, leaving [available] alone; [effect] then shows the label the
    theme table holds for that code. *)
Theorem light_event_sets_effect (K : constants) (data lt : pydict)
    (l : CircuitLight.t) (v c label : pyval) :
  subscribed K data (ALight l) = true ->
  assoc "isOn" data = Some v ->
  assoc "lightingTheme" data = Some (VDict lt) ->
  assoc "val" lt = Some c ->
  hashable c = true ->
  table_find (CircuitLight._lightthemes l) c = Some label ->
  let o := CircuitLight._handle_coordinator_update K data l in
  outcome o = Ok tt
  /\ CircuitLight.is_on (final_state o) = Ok v
  /\ CircuitLight.effect (final_state o) = Ok label
  /\ CircuitLight.available (final_state o) = CircuitLight.available l.
Proof.
  intros Hmine Hon Htheme Hval Hh Hfind o. subst o.
  unfold subscribed, kind_is, id_is, expected_kind, subject_id, is_temp in Hmine.
  simpl in Hmine.
  unfold CircuitLight._handle_coordinator_update, bind, get, put, lift, ret,
    async_write_ha_state, emit, dict_getitem, dict_contains,
    final_state, outcome.
  destruct (assoc "event" data) as [kind |]; [| discriminate].
  destruct (py_eq kind (VStr (CircuitLight._event l))); [| discriminate].
  destruct (assoc "id" data) as [id |]; [| discriminate].
  simpl in Hmine. rewrite Hmine, Hon, Htheme. simpl.
  unfold dict_getitem. rewrite Hval. simpl.
  repeat split.
  unfold CircuitLight.effect, table_contains, table_getitem. simpl.
  rewrite Hh, Hfind. reflexivity.
Qed.

Lemma light_event_sets_effect_witness :
  CircuitLight.effect
    (final_state
       (CircuitLight._handle_coordinator_update njspc
          [ ("event", VStr "circuit"); ("id", VInt 6); ("isOn", VBool true);
            ("lightingTheme", VDict [("val", VInt 4)]) ]
          (light_with themes_sample VNone)))
  = Ok (VStr "Party").
Proof.
  apply (light_event_sets_effect njspc
           [ ("event", VStr "circuit"); ("id", VInt 6); ("isOn", VBool true);
             ("lightingTheme", VDict [("val", VInt 4)]) ]
           [("val", VInt 4)] (light_with themes_sample VNone)
           (VBool true) (VInt 4) (VStr "Party"));
    reflexivity.
Defined.

(** ** Entities that replace their record *)

(** X7.  The climate entity keeps no field of its own: an own body event
    becomes the whole cached body.  A field the event does not carry is
    gone afterwards: without [type] the range is the pool range whatever
    the body was, without [heatStatus] the action is OFF, without
    [heatMode] the preset is ["Off"], and without [temp], [setPoint] or
    [name] the corresponding property raises [KeyError].  The heat-mode
    table and the unit flag stay. *)
Theorem body_event_replaces_cache (K : constants) (data : pydict)
    (c : Climate.t) :
  subscribed K data (AClimate c) = true ->
  let o := Climate._handle_coordinator_update K data c in
  let c' := final_state o in
  outcome o = Ok tt
  /\ Climate._body c' = data
  /\ Climate._heatmodes c' = Climate._heatmodes c
  /\ Climate._units c' = Climate._units c
  /\ (assoc "type" data = None ->
      Climate.min_temp c'
      = Ok (if py_eq (Climate._units c) (VInt 0) then 70 else 21)
      /\ Climate.max_temp c'
         = Ok (if py_eq (Climate._units c) (VInt 0) then 95 else 35))
  /\ (assoc "heatStatus" data = None ->
      Climate.hvac_action c' = Ok Climate.OFF)
  /\ (assoc "heatMode" data = None ->
      Climate.preset_mode c' = Ok (VStr "Off"))
  /\ (assoc "temp" data = None ->
      Climate.current_temperature c' = Raise KeyError)
  /\ (assoc "setPoint" data = None ->
      Climate.target_temperature c' = Raise KeyError)
  /\ (assoc "name" data = None -> Climate.name c' = Raise KeyError).
Proof.
  intros Hmine o c'. subst c' o.
  unfold subscribed, kind_is, id_is, expected_kind, subject_id, is_temp in Hmine.
  simpl in Hmine.
  unfold Climate._handle_coordinator_update, bind, get, put, lift, ret,
    async_write_ha_state, emit, dict_getitem, final_state, outcome.
  destruct (assoc "event" data) as [kind |]; [| discriminate].
  destruct (py_eq kind (VStr (EVENT_BODY K))); [| discriminate].
  destruct (assoc "id" data) as [id |]; [| discriminate].
  destruct (assoc "id" (Climate._body c)) as [own |]; [| discriminate].
  simpl in Hmine. rewrite Hmine. simpl.
  repeat split.
  all: intros.
  all: unfold Climate.min_temp, Climate.max_temp, Climate.hvac_action,
         Climate.preset_mode, Climate.current_temperature,
         Climate.target_temperature, Climate.name, dict_getitem; simpl.
  all: match goal with Habs : assoc _ _ = None |- _ => rewrite Habs end.
  all: reflexivity.
Qed.

Lemma body_event_replaces_cache_witness :
  Climate.min_temp (Climate.init body_spa heatmodes_sample (VInt 0)) = Ok 90
  /\ Climate.min_temp
       (final_state
          (Climate._handle_coordinator_update njspc
             [("event", VStr "body"); ("id", VInt 2); ("temp", VInt 99)]
             (Climate.init body_spa heatmodes_sample (VInt 0))))
     = Ok 70.
Proof.
  split; [reflexivity |].
  apply (proj1 (proj2 (proj2 (proj2 (proj2
           (body_event_replaces_cache njspc
              [("event", VStr "body"); ("id", VInt 2); ("temp", VInt 99)]
              (Climate.init body_spa heatmodes_sample (VInt 0))
              eq_refl)))))).
  reflexivity.
Defined.

(** X8.  The salt and the status sensor show what the last accepted event
    carries and nothing else: after an own event the salt level is the
    event's [saltLevel] and the status is the event's [status.desc], and
    each raises [KeyError] when the event lacks its field.  The value the
    salt sensor took from the configuration at construction is never
    shown. *)
Theorem record_sensors_show_the_event (K : constants) (data : pydict) :
  (forall s : SaltSensor.t,
      subscribed K data (ASalt s) = true ->
      let o := SaltSensor._handle_coordinator_update K data s in
      outcome o = Ok tt
      /\ SaltSensor.native_value (final_state o) = dict_getitem data "saltLevel"
      /\ SaltSensor._value (final_state o) = SaltSensor._value s)
  /\ (forall s : StatusSensor.t,
         subscribed K data (AStatus s) = true ->
         let o := StatusSensor._handle_coordinator_update data s in
         outcome o = Ok tt
         /\ StatusSensor.native_value (final_state o)
            = rbind (dict_getitem data "status") (fun st => getitem st "desc")
         /\ StatusSensor._event (final_state o) = StatusSensor._event s).
Proof.
  split; intros s Hmine o; subst o;
    unfold subscribed, kind_is, id_is, expected_kind, subject_id, is_temp
      in Hmine;
    simpl in Hmine.
  - unfold SaltSensor._handle_coordinator_update, bind, get, put, lift, ret,
      async_write_ha_state, emit, dict_getitem, final_state, outcome.
    destruct (assoc "event" data) as [kind |]; [| discriminate].
    destruct (py_eq kind (VStr (EVENT_CHLORINATOR K))); [| discriminate].
    destruct (assoc "id" data) as [id |]; [| discriminate].
    destruct (assoc "id" (SaltSensor._chlorinator s)) as [own |];
      [| discriminate].
    simpl in Hmine. rewrite Hmine. repeat split.
  - unfold StatusSensor._handle_coordinator_update, bind, get, put, lift, ret,
      async_write_ha_state, emit, dict_getitem, final_state, outcome.
    destruct (assoc "event" data) as [kind |]; [| discriminate].
    destruct (py_eq kind (VStr (StatusSensor._event s))); [| discriminate].
    destruct (assoc "id" data) as [id |]; [| discriminate].
    destruct (assoc "id" (StatusSensor._equipment s)) as [own |];
      [| discriminate].
    simpl in Hmine. rewrite Hmine. repeat split.
Qed.

Lemma record_sensors_show_the_event_witness :
  StatusSensor.native_value
    (final_state
       (StatusSensor._handle_coordinator_update
          [("event", VStr "pump"); ("id", VInt 7); ("rpm", VInt 2200)]
          (StatusSensor.init
             [("id", VInt 7); ("status", VDict [("desc", VStr "Ok")])]
             "pump")))
  = Raise KeyError.
Proof.
  apply (proj2 (record_sensors_show_the_event njspc
                  [("event", VStr "pump"); ("id", VInt 7); ("rpm", VInt 2200)])
           (StatusSensor.init
              [("id", VInt 7); ("status", VDict [("desc", VStr "Ok")])]
              "pump") eq_refl).
Defined.

(** X9.  The icon of a status sensor follows its value: the check mark when
    [status.desc] equals ["Ok"], the alert for any other description, and
    it raises exactly when [native_value] raises. *)
Theorem status_icon_follows_value (self : StatusSensor.t) :
  (forall desc,
      StatusSensor.native_value self = Ok desc ->
      StatusSensor.icon self
      = Ok (if py_eq desc (VStr "Ok") then "mdi:check-circle"
            else "mdi:alert-circle"))
  /\ (forall e,
         StatusSensor.native_value self = Raise e <->
         StatusSensor.icon self = Raise e).
Proof.
  unfold StatusSensor.native_value, StatusSensor.icon, py_ne.
  destruct (dict_getitem (StatusSensor._equipment self) "status") as [st | e0];
    simpl.
  - destruct (getitem st "desc") as [d | e1]; simpl.
    + split.
      * intros desc Hd. inversion Hd; subst.
        destruct (py_eq desc (VStr "Ok")); reflexivity.
      * intros e. split; [discriminate |].
        destruct (py_eq d (VStr "Ok")); discriminate.
    + split; [discriminate |].
      intros e. split; intros He; inversion He; reflexivity.
  - split; [discriminate |].
    intros e. split; intros He; inversion He; reflexivity.
Qed.

Lemma status_icon_follows_value_witness :
  StatusSensor.icon
    (StatusSensor.init
       [("id", VInt 7); ("status", VDict [("desc", VStr "Stalled")])] "pump")
  = Ok "mdi:alert-circle".
Proof.
  apply (proj1 (status_icon_follows_value
                  (StatusSensor.init
                     [("id", VInt 7);
                      ("status", VDict [("desc", VStr "Stalled")])] "pump"))
           (VStr "Stalled")).
  reflexivity.
Defined.

(** ** Entities that keep their record *)

Lemma rpm_step (K : constants) (data : pydict) (s : RPMSensor.t) :
  let s' := final_state (RPMSensor._handle_coordinator_update K data s) in
  RPMSensor._pump s' = RPMSensor._pump s
  /\ (RPMSensor._value s' = RPMSensor._value s
      \/ assoc "rpm" data = Some (RPMSensor._value s')).
Proof.
  intros s'. subst s'.
  unfold RPMSensor._handle_coordinator_update, bind, get, put, lift, ret,
    async_write_ha_state, emit, dict_getitem, final_state.
  simpl. repeat case_goal.
  all: split; [reflexivity |].
  all: solve [left; reflexivity | right; reflexivity].
Qed.

Lemma power_step (K : constants) (data : pydict) (s : PowerSensor.t) :
  let s' := final_state (PowerSensor._handle_coordinator_update K data s) in
  PowerSensor._pump s' = PowerSensor._pump s
  /\ (PowerSensor._value s' = PowerSensor._value s
      \/ assoc "watts" data = Some (PowerSensor._value s')).
Proof.
  intros s'. subst s'.
  unfold PowerSensor._handle_coordinator_update, bind, get, put, lift, ret,
    async_write_ha_state, emit, dict_getitem, final_state.
  simpl. repeat case_goal.
  all: split; [reflexivity |].
  all: solve [left; reflexivity | right; reflexivity].
Qed.

(** X10.  The pump sensors never replace the pump record they were built
    from: after any sequence of events their name, and the speed limits of
    the RPM sensor, are those of the configuration, and the value shown is
    the initial one or the [rpm] (respectively [watts]) field of one of the
    delivered events. *)
Theorem pump_sensors_keep_their_record (K : constants)
    (events : list pydict) :
  (forall s : RPMSensor.t,
      exists s',
        deliver_all K events (ARPM s) = ARPM s'
        /\ RPMSensor.name s' = RPMSensor.name s
        /\ RPMSensor.extra_state_attributes s'
           = RPMSensor.extra_state_attributes s
        /\ (RPMSensor.native_value s' = RPMSensor.native_value s
            \/ exists data,
                 In data events
                 /\ assoc "rpm" data = Some (RPMSensor.native_value s')))
  /\ (forall s : PowerSensor.t,
         exists s',
           deliver_all K events (APower s) = APower s'
           /\ PowerSensor.name s' = PowerSensor.name s
           /\ (PowerSensor.native_value s' = PowerSensor.native_value s
               \/ exists data,
                    In data events
                    /\ assoc "watts" data = Some (PowerSensor.native_value s'))).
Proof.
  split.
  - assert (Hgen : forall s : RPMSensor.t,
               exists s',
                 deliver_all K events (ARPM s) = ARPM s'
                 /\ RPMSensor._pump s' = RPMSensor._pump s
                 /\ (RPMSensor._value s' = RPMSensor._value s
                     \/ exists data,
                          In data events
                          /\ assoc "rpm" data = Some (RPMSensor._value s'))).
    { induction events as [| ev evs IH]; intros s.
      - exists s. repeat split. left. reflexivity.
      - simpl. unfold rewrap, final_state at 1. simpl.
        destruct (rpm_step K ev s) as [Hpump Hval].
        destruct (IH (final_state
                        (RPMSensor._handle_coordinator_update K ev s)))
          as (s' & Hrun & Hpump' & Hval').
        exists s'. split; [exact Hrun |]. split; [congruence |].
        destruct Hval' as [Hsame | (d & Hin & Hd)].
        + destruct Hval as [Hold | Hnew].
          * left. congruence.
          * right. exists ev. split; [left; reflexivity | congruence].
        + right. exists d. split; [right; exact Hin | exact Hd]. }
    intros s. destruct (Hgen s) as (s' & Hrun & Hpump & Hval).
    exists s'. split; [exact Hrun |].
    unfold RPMSensor.name, RPMSensor.extra_state_attributes,
      RPMSensor.native_value.
    rewrite Hpump. repeat split. exact Hval.
  - assert (Hgen : forall s : PowerSensor.t,
               exists s',
                 deliver_all K events (APower s) = APower s'
                 /\ PowerSensor._pump s' = PowerSensor._pump s
                 /\ (PowerSensor._value s' = PowerSensor._value s
                     \/ exists data,
                          In data events
                          /\ assoc "watts" data = Some (PowerSensor._value s'))).
    { induction events as [| ev evs IH]; intros s.
      - exists s. repeat split. left. reflexivity.
      - simpl. unfold rewrap, final_state at 1. simpl.
        destruct (power_step K ev s) as [Hpump Hval].
        destruct (IH (final_state
                        (PowerSensor._handle_coordinator_update K ev s)))
          as (s' & Hrun & Hpump' & Hval').
        exists s'. split; [exact Hrun |]. split; [congruence |].
        destruct Hval' as [Hsame | (d & Hin & Hd)].
        + destruct Hval as [Hold | Hnew].
          * left. congruence.
          * right. exists ev. split; [left; reflexivity | congruence].
        + right. exists d. split; [right; exact Hin | exact Hd]. }
    intros s. destruct (Hgen s) as (s' & Hrun & Hpump & Hval).
    exists s'. split; [exact Hrun |].
    unfold PowerSensor.name, PowerSensor.native_value.
    rewrite Hpump. repeat split. exact Hval.
Qed.

Lemma temp_step (K : constants) (data : pydict) (s : TempSensor.t) :
  let s' := final_state (TempSensor._handle_coordinator_update K data s) in
  TempSensor._key s' = TempSensor._key s
  /\ TempSensor._units s' = TempSensor._units s
  /\ (TempSensor._value s' = TempSensor._value s
      \/ exists raw,
           kind_is data (EVENT_TEMPS K) = true
           /\ assoc (TempSensor._key s) data = Some raw
           /\ py_round1 raw = Ok (TempSensor._value s')).
Proof.
  intros s'. subst s'.
  unfold TempSensor._handle_coordinator_update, bind, get, put, lift, ret,
    async_write_ha_state, emit, dict_getitem, final_state, kind_is.
  simpl. repeat case_goal.
  all: repeat split; auto.
  right. eexists. repeat split. assumption.
Qed.

(** X11.  A temperature sensor shows only what [round] made of its own
    field: after any sequence of events the value is the one it had at the
    start or [round(data[key], 1)] for one of the delivered events of the
    temps kind, [key] being the key the sensor was built for.  The key and
    the unit never change, so neither do the name and the unit of
    measurement. *)
Theorem temp_sensor_shows_its_rounded_field (K : constants)
    (events : list pydict) (s : TempSensor.t) :
  exists s',
    deliver_all K events (ATemp s) = ATemp s'
    /\ TempSensor.name s' = TempSensor.name s
    /\ TempSensor.native_unit_of_measurement s'
       = TempSensor.native_unit_of_measurement s
    /\ (TempSensor.native_value s' = TempSensor.native_value s
        \/ exists data raw,
             In data events
             /\ kind_is data (EVENT_TEMPS K) = true
             /\ assoc (TempSensor._key s) data = Some raw
             /\ py_round1 raw = Ok (TempSensor.native_value s')).
Proof.
  assert (Hgen : forall s0 : TempSensor.t,
             exists s',
               deliver_all K events (ATemp s0) = ATemp s'
               /\ TempSensor._key s' = TempSensor._key s0
               /\ TempSensor._units s' = TempSensor._units s0
               /\ (TempSensor._value s' = TempSensor._value s0
                   \/ exists data raw,
                        In data events
                        /\ kind_is data (EVENT_TEMPS K) = true
                        /\ assoc (TempSensor._key s0) data = Some raw
                        /\ py_round1 raw = Ok (TempSensor._value s'))).
  { induction events as [| ev evs IH]; intros s0.
    - exists s0. repeat split. left. reflexivity.
    - simpl. unfold rewrap, final_state at 1. simpl.
      destruct (temp_step K ev s0) as (Hk & Hu & Hv).
      destruct (IH (final_state
                      (TempSensor._handle_coordinator_update K ev s0)))
        as (s' & Hrun & Hk' & Hu' & Hv').
      exists s'. split; [exact Hrun |].
      split; [congruence |]. split; [congruence |].
      destruct Hv' as [Hsame | (d & raw & Hin & Hkind & Hraw & Hround)].
      + destruct Hv as [Hold | (raw & Hkind & Hraw & Hround)].
        * left. congruence.
        * right. exists ev, raw.
          split; [left; reflexivity |]. split; [exact Hkind |].
          split; [exact Hraw | congruence].
      + right. exists d, raw.
        split; [right; exact Hin |]. split; [exact Hkind |].
        split; [congruence | exact Hround]. }
  destruct (Hgen s) as (s' & Hrun & Hk & Hu & Hv).
  exists s'. split; [exact Hrun |].
  unfold TempSensor.name, TempSensor.native_unit_of_measurement,
    TempSensor.native_value.
  rewrite Hk, Hu. repeat split. exact Hv.
Qed.

(** ** Building a code->label table *)

Lemma py_eq_sym (a b : pyval) :
  hashable a = true -> py_eq a b = py_eq b a.
Proof.
  intros Ha.
  destruct a as [| x | x | x | x | x], b as [| y | y | y | y | y];
    simpl in *; try discriminate; try reflexivity.
  - destruct x, y; reflexivity.
  - apply Z.eqb_sym.
  - apply Z.eqb_sym.
  - apply Z.eqb_sym.
  - apply String.eqb_sym.
Qed.

Lemma py_eq_same_key (k' k v : pyval) :
  hashable k' = true -> hashable k = true -> py_eq k' k = true ->
  py_eq k' v = py_eq k v.
Proof.
  intros Hk' Hk Heq.
  rewrite (py_eq_sym k' v Hk'), (py_eq_sym k v Hk).
  apply (py_eq_hashable k' k Hk Heq).
Qed.

Lemma table_find_setitem (t : table pyval) (k d v : pyval) :
  keys_hashable t -> hashable k = true ->
  table_find (table_setitem t k d) v
  = if py_eq k v then Some d else table_find t v.
Proof.
  intros Ht Hk. induction t as [| [k0 d0] t IH]; simpl.
  - reflexivity.
  - assert (Hk0 : hashable k0 = true) by (apply (Ht k0 d0); left; reflexivity).
    assert (Ht' : keys_hashable t)
      by (intros a b Hin; apply (Ht a b); right; exact Hin).
    destruct (py_eq k0 k) eqn:E; simpl.
    + rewrite (py_eq_same_key k0 k v Hk0 Hk E).
      destruct (py_eq k v); reflexivity.
    + rewrite (IH Ht').
      destruct (py_eq k0 v) eqn:E0; [| reflexivity].
      destruct (py_eq k v) eqn:E1; [| reflexivity].
      rewrite (py_eq_sym k v Hk) in E1.
      rewrite (proj2 (py_eq_hashable v k Hk E1) k0) in E0.
      congruence.
Qed.

Lemma table_setitem_keys (t : table pyval) (k d : pyval) :
  keys_hashable t -> hashable k = true ->
  keys_hashable (table_setitem t k d).
Proof.
  intros Ht Hk. induction t as [| [k0 d0] t IH]; simpl.
  - intros a b [Hin | []]. inversion Hin; subst. exact Hk.
  - assert (Ht' : keys_hashable t)
      by (intros a b Hin; apply (Ht a b); right; exact Hin).
    destruct (py_eq k0 k).
    + intros a b [Hin | Hin].
      * inversion Hin; subst. apply (Ht a d0). left. reflexivity.
      * apply (Ht a b). right. exact Hin.
    + intros a b [Hin | Hin].
      * inversion Hin; subst. apply (Ht a b). left. reflexivity.
      * apply (IH Ht' a b Hin).
Qed.

Lemma table_setitem_key_in (t : table pyval) (k d a b : pyval) :
  In (a, b) (table_setitem t k d) ->
  a = k \/ exists b', In (a, b') t.
Proof.
  induction t as [| [k0 d0] t IH]; simpl.
  - intros [Hin | []]. inversion Hin. left. reflexivity.
  - destruct (py_eq k0 k).
    + intros [Hin | Hin].
      * inversion Hin; subst. right. exists d0. left. reflexivity.
      * right. exists b. right. exact Hin.
    + intros [Hin | Hin].
      * inversion Hin; subst. right. exists b. left. reflexivity.
      * destruct (IH Hin) as [Hk | [b' Hb']]; [left; exact Hk |].
        right. exists b'. right. exact Hb'.
Qed.

Lemma table_setitem_distinct (t : table pyval) (k d : pyval) :
  ForallOrdPairs codes_differ t ->
  ForallOrdPairs codes_differ (table_setitem t k d).
Proof.
  induction 1 as [| [k0 d0] t Hhead Htail IH]; simpl.
  - constructor; constructor.
  - destruct (py_eq k0 k) eqn:E.
    + constructor; [| exact Htail].
      rewrite Forall_forall in *. intros x Hx. apply (Hhead x Hx).
    + constructor; [| exact IH].
      rewrite Forall_forall in *. intros [a b] Hx.
      destruct (table_setitem_key_in _ _ _ _ _ Hx) as [Hk | [b' Hb']].
      * subst. exact E.
      * apply (Hhead (a, b') Hb').
Qed.

Lemma table_setitem_length (t : table pyval) (k d : pyval) :
  (List.length (table_setitem t k d) <= S (List.length t))%nat.
Proof.
  induction t as [| [k0 d0] t IH]; simpl; [lia |].
  destruct (py_eq k0 k); simpl; lia.
Qed.

Lemma collect_general (desc : string) (modes : list pyval) :
  forall acc t,
    collect desc modes acc = Ok t ->
    keys_hashable acc ->
    ForallOrdPairs codes_differ acc ->
    keys_hashable t
    /\ ForallOrdPairs codes_differ t
    /\ (List.length t <= List.length acc + List.length modes)%nat
    /\ (forall v,
           (forall m code, In m modes -> getitem m "val" = Ok code ->
                           py_eq code v = false) ->
           table_find t v = table_find acc v)
    /\ (forall front m back code label v,
           modes = front ++ m :: back ->
           getitem m "val" = Ok code ->
           getitem m desc = Ok label ->
           py_eq code v = true ->
           (forall m' code', In m' back -> getitem m' "val" = Ok code' ->
                             py_eq code' v = false) ->
           table_find t v = Some label).
Proof.
  induction modes as [| m0 rest IH]; intros acc t Hrun Hacc Hdist.
  - simpl in Hrun. inversion Hrun; subst.
    repeat split; auto.
    + simpl. lia.
    + intros front m back code label v Hsplit.
      destruct front; discriminate.
  - simpl in Hrun.
    destruct (getitem m0 desc) as [label0 | e] eqn:Hlabel; simpl in Hrun;
      [| discriminate].
    destruct (getitem m0 "val") as [code0 | e] eqn:Hcode; simpl in Hrun;
      [| discriminate].
    unfold table_store in Hrun.
    destruct (hashable code0) eqn:Hh; simpl in Hrun; [| discriminate].
    destruct (IH _ _ Hrun (table_setitem_keys acc code0 label0 Hacc Hh)
                (table_setitem_distinct acc code0 label0 Hdist))
      as (Hkeys & Hd & Hlen & Hmiss & Hlast).
    split; [exact Hkeys |]. split; [exact Hd |]. split; [| split].
    + pose proof (table_setitem_length acc code0 label0). simpl. lia.
    + intros v Hnone.
      rewrite Hmiss
        by (intros m code Hin; apply Hnone; right; exact Hin).
      rewrite (table_find_setitem acc code0 label0 v Hacc Hh).
      rewrite (Hnone m0 code0 (or_introl eq_refl) Hcode). reflexivity.
    + intros front m back code label v Hsplit Hc Hl Heq Hback.
      destruct front as [| f front'].
      * simpl in Hsplit. inversion Hsplit; subst.
        rewrite Hmiss by exact Hback.
        rewrite (table_find_setitem acc code0 label0 v Hacc Hh).
        rewrite Hcode in Hc. inversion Hc; subst.
        rewrite Hlabel in Hl. inversion Hl; subst.
        rewrite Heq. reflexivity.
      * simpl in Hsplit. inversion Hsplit; subst.
        apply (Hlast front' m back code label v eq_refl Hc Hl Heq Hback).
Qed.

(** X12.  A table collected from the API's list holds, for every code, the
    label of the last entry of the list with an equal code, and nothing for
    a code that no entry has; its codes are hashable and pairwise unequal,
    and it has at most one entry per list element. *)
Theorem table_last_entry_wins (desc : string) (modes : list pyval)
    (t : table pyval) :
  collect desc modes [] = Ok t ->
  keys_hashable t
  /\ ForallOrdPairs codes_differ t
  /\ (List.length t <= List.length modes)%nat
  /\ (forall v,
         (forall m code, In m modes -> getitem m "val" = Ok code ->
                         py_eq code v = false) ->
         table_find t v = None)
  /\ (forall front m back code label v,
         modes = front ++ m :: back ->
         getitem m "val" = Ok code ->
         getitem m desc = Ok label ->
         py_eq code v = true ->
         (forall m' code', In m' back -> getitem m' "val" = Ok code' ->
                           py_eq code' v = false) ->
         table_find t v = Some label).
Proof.
  intros Hrun.
  destruct (collect_general desc modes [] t Hrun)
    as (Hkeys & Hd & Hlen & Hmiss & Hlast).
  - intros k d [].
  - constructor.
  - repeat split; auto.
Qed.

Lemma table_last_entry_wins_witness :
  table_find
    [ (VInt 1, VStr "No heat"); (VInt 2, VStr "Heater") ] (VInt 1)
  = Some (VStr "No heat").
Proof.
  apply (proj2 (proj2 (proj2 (proj2
           (table_last_entry_wins "desc" modes_listed
              [ (VInt 1, VStr "No heat"); (VInt 2, VStr "Heater") ]
              eq_refl))))
           [ VDict [("val", VInt 1); ("desc", VStr "Off")];
             VDict [("val", VInt 2); ("desc", VStr "Heater")] ]
           (VDict [("val", VBool true); ("desc", VStr "No heat")])
           [] (VBool true) (VStr "No heat") (VInt 1));
    try reflexivity.
  intros m' code' [].
Defined.

(** ** Setting up the climate platform *)

Lemma add_bodies_spec (get_heatmodes : pyval -> result pyval) (units : pyval)
    (bodies : list pyval) :
  forall acc devs,
    ClimatePlatform.add_bodies get_heatmodes units bodies acc = Ok devs ->
    exists news,
      devs = acc ++ news
      /\ Forall2 (ClimatePlatform.built_from get_heatmodes units) bodies news.
Proof.
  induction bodies as [| body rest IH]; intros acc devs Hrun; simpl in Hrun.
  - inversion Hrun; subst. exists []. split; [symmetry; apply app_nil_r |].
    constructor.
  - destruct body as [| | | | | record]; try discriminate.
    unfold dict_getitem in Hrun.
    destruct (assoc "id" record) as [id |] eqn:Hid; simpl in Hrun;
      [| discriminate].
    destruct (get_heatmodes id) as [listed | e] eqn:Hlisted; simpl in Hrun;
      [| discriminate].
    destruct (py_iter listed) as [modes | e] eqn:Hmodes; simpl in Hrun;
      [| discriminate].
    destruct (collect "desc" modes []) as [heatmodes | e] eqn:Hcollect;
      simpl in Hrun; [| discriminate].
    destruct (IH _ _ Hrun) as (news & Hdevs & Hall).
    exists (Climate.init record heatmodes units :: news).
    split.
    + rewrite Hdevs, <- app_assoc. reflexivity.
    + constructor; [| exact Hall].
      exists record, id, listed, modes. repeat split; assumption.
Qed.

Lemma climate_setup_spec
    (get_heatmodes : pyval -> result pyval) (config : pydict)
    (added : option (list Climate.t)) :
  ClimatePlatform.async_setup_entry get_heatmodes config = Ok added ->
  exists temps u units listed bodies,
    assoc "temps" config = Some temps
    /\ getitem temps "units" = Ok u
    /\ getitem u "val" = Ok units
    /\ getitem temps "bodies" = Ok listed
    /\ py_iter listed = Ok bodies
    /\ match added with
       | None => bodies = []
       | Some devices =>
           bodies <> []
           /\ Forall2 (ClimatePlatform.built_from get_heatmodes units)
                bodies devices
       end.
Proof.
  unfold ClimatePlatform.async_setup_entry, dict_getitem. intros Hrun.
  destruct (assoc "temps" config) as [temps |] eqn:Htemps; simpl in Hrun;
    [| discriminate].
  destruct (getitem temps "units") as [u | e] eqn:Hu; simpl in Hrun;
    [| discriminate].
  destruct (getitem u "val") as [units | e] eqn:Hunits; simpl in Hrun;
    [| discriminate].
  destruct (getitem temps "bodies") as [listed | e] eqn:Hlisted;
    simpl in Hrun; [| discriminate].
  destruct (py_iter listed) as [bodies | e] eqn:Hbodies; simpl in Hrun;
    [| discriminate].
  destruct (ClimatePlatform.add_bodies get_heatmodes units bodies [])
    as [devices | e] eqn:Hadd; simpl in Hrun; [| discriminate].
  inversion Hrun; subst. clear Hrun.
  destruct (add_bodies_spec _ _ _ _ _ Hadd) as (news & Hdevs & Hall).
  simpl in Hdevs. subst news.
  exists temps, u, units, listed, bodies.
  repeat (split; [first [assumption | reflexivity] |]).
  destruct devices as [| d ds]; simpl.
  - inversion Hall. reflexivity.
  - split; [| exact Hall]. inversion Hall. discriminate.
Qed.

(** X13.  When the climate platform sets up, it hands the host one entity
    per body of the configuration, in the order of the bodies, each caching
    its body record, the unit flag [temps.units.val] and the table
    collected from what the API lists for the body's id; with no body it
    hands over nothing.  A set-up that returns has therefore found an [id]
    in every body and a [val] and [desc] in every listed mode. *)
Theorem climate_setup_adds_one_entity_per_body
    (get_heatmodes : pyval -> result pyval) (config : pydict)
    (added : option (list Climate.t)) :
  ClimatePlatform.async_setup_entry get_heatmodes config = Ok added ->
  exists temps u units listed bodies,
    assoc "temps" config = Some temps
    /\ getitem temps "units" = Ok u
    /\ getitem u "val" = Ok units
    /\ getitem temps "bodies" = Ok listed
    /\ py_iter listed = Ok bodies
    /\ match added with
       | None => bodies = []
       | Some devices =>
           bodies <> []
           /\ Forall2 (ClimatePlatform.built_from get_heatmodes units)
                bodies devices
       end.
Proof.
  apply climate_setup_spec.
Qed.

Lemma climate_setup_adds_one_entity_per_body_witness :
  exists temps u units listed bodies,
    assoc "temps" climate_config = Some temps
    /\ getitem temps "units" = Ok u
    /\ getitem u "val" = Ok units
    /\ getitem temps "bodies" = Ok listed
    /\ py_iter listed = Ok bodies
    /\ bodies <> []
    /\ Forall2 (ClimatePlatform.built_from heatmodes_api units) bodies
         [ Climate.init body_pool
             [(VInt 1, VStr "No heat"); (VInt 2, VStr "Heater")] (VInt 0);
           Climate.init body_spa
             [(VInt 1, VStr "No heat"); (VInt 2, VStr "Heater")] (VInt 0) ].
Proof.
  apply (climate_setup_adds_one_entity_per_body heatmodes_api climate_config
           (Some [ Climate.init body_pool
                     [(VInt 1, VStr "No heat"); (VInt 2, VStr "Heater")]
                     (VInt 0);
                   Climate.init body_spa
                     [(VInt 1, VStr "No heat"); (VInt 2, VStr "Heater")]
                     (VInt 0) ])).
  reflexivity.
Defined.

Lemma climate_step_keeps_id (K : constants) (data : pydict) (c : Climate.t) :
  (exists id, assoc "id" (Climate._body c) = Some id) ->
  exists id,
    assoc "id"
      (Climate._body
         (final_state (Climate._handle_coordinator_update K data c)))
    = Some id.
Proof.
  intros [own Hown].
  unfold Climate._handle_coordinator_update, bind, get, put, lift, ret,
    async_write_ha_state, emit, dict_getitem, final_state.
  simpl. repeat case_goal; eauto.
Qed.

Lemma climate_stream_keeps_id (K : constants) (events : list pydict) :
  forall c,
    (exists id, assoc "id" (Climate._body c) = Some id) ->
    exists c',
      deliver_all K events (AClimate c) = AClimate c'
      /\ exists id, assoc "id" (Climate._body c') = Some id.
Proof.
  induction events as [| ev evs IH]; intros c Hid.
  - exists c. split; [reflexivity | exact Hid].
  - simpl. unfold rewrap, final_state at 1. simpl.
    apply IH. apply climate_step_keeps_id. exact Hid.
Qed.

(** X14.  A climate entity that the platform added finds the [id] of its
    body for as long as it lives: whatever events it has received, its two
    commands do not fail on the entity's own account.  When one of them
    raises, the exception is the one the transport raised for the command
    that was sent. *)
Theorem climate_commands_find_their_id (K : constants)
    (get_heatmodes : pyval -> result pyval) (config : pydict)
    (devices : list Climate.t) (c : Climate.t) (events : list pydict) :
  ClimatePlatform.async_setup_entry get_heatmodes config = Ok (Some devices) ->
  In c devices ->
  exists c',
    deliver_all K events (AClimate c) = AClimate c'
    /\ forall transport e,
         (forall kwargs,
             outcome (Climate.async_set_temperature transport kwargs c')
             = Raise e ->
             exists url data,
               In (Command url data)
                  (trace (Climate.async_set_temperature transport kwargs c'))
               /\ transport url data = Some e)
         /\ (forall label,
                outcome (Climate.async_set_preset_mode transport label c')
                = Raise e ->
                exists url data,
                  In (Command url data)
                     (trace (Climate.async_set_preset_mode transport label c'))
                  /\ transport url data = Some e).
Proof.
  intros Hsetup Hin.
  destruct (climate_setup_spec _ _ _ Hsetup)
    as (temps & u & units & listed & bodies & _ & _ & _ & _ & _ & _ & Hall).
  assert (Hid : exists id, assoc "id" (Climate._body c) = Some id).
  { clear Hsetup. induction Hall as [| body d bs ds Hone Hrest IH].
    - destruct Hin.
    - destruct Hin as [Heq | Hin]; [| exact (IH Hin)].
      subst d.
      destruct Hone as (record & id & _ & _ & _ & Hid & _ & _ & _ & Hbody & _).
      exists id. rewrite Hbody. exact Hid. }
  destruct (climate_stream_keeps_id K events c Hid) as (c' & Hrun & id & Hid').
  exists c'. split; [exact Hrun |].
  intros transport e. split.
  - intros kwargs.
    unfold Climate.async_set_temperature, bind, get, lift, api_command,
      dict_getitem, outcome, trace, transport_result.
    rewrite Hid'. simpl.
    match goal with |- context [transport ?u ?d] =>
      destruct (transport u d) as [e' |] eqn:Ht end;
      [| discriminate].
    intros He. inversion He; subst.
    eexists. eexists. split; [left; reflexivity | exact Ht].
  - intros label.
    unfold Climate.async_set_preset_mode, bind, get, lift, api_command,
      logger_error, emit, dict_getitem, outcome, trace, transport_result.
    destruct (is_none (next_key (Climate._heatmodes c') label)); simpl;
      [discriminate |].
    rewrite Hid'. simpl.
    match goal with |- context [transport ?u ?d] =>
      destruct (transport u d) as [e' |] eqn:Ht end;
      [| discriminate].
    intros He. inversion He; subst.
    eexists. eexists. split; [left; reflexivity | exact Ht].
Qed.

Lemma climate_commands_find_their_id_witness :
  exists c',
    deliver_all njspc
      [ [("event", VStr "body"); ("id", VInt 1); ("temp", VInt 81)] ]
      (AClimate
         (Climate.init body_pool
            [(VInt 1, VStr "No heat"); (VInt 2, VStr "Heater")] (VInt 0)))
    = AClimate c'
    /\ forall transport e,
         (forall kwargs,
             outcome (Climate.async_set_temperature transport kwargs c')
             = Raise e ->
             exists url data,
               In (Command url data)
                  (trace (Climate.async_set_temperature transport kwargs c'))
               /\ transport url data = Some e)
         /\ (forall label,
                outcome (Climate.async_set_preset_mode transport label c')
                = Raise e ->
                exists url data,
                  In (Command url data)
                     (trace (Climate.async_set_preset_mode transport label c'))
                  /\ transport url data = Some e).
Proof.
  apply (climate_commands_find_their_id njspc heatmodes_api climate_config
           [ Climate.init body_pool
               [(VInt 1, VStr "No heat"); (VInt 2, VStr "Heater")] (VInt 0);
             Climate.init body_spa
               [(VInt 1, VStr "No heat"); (VInt 2, VStr "Heater")] (VInt 0) ]).
  - reflexivity.
  - left. reflexivity.
Defined.

(** ** Setting up the sensor platform *)

(** What the set-up makes of a key of [temps], of a pump and of a
    chlorinator. *)
Lemma add_temps_spec (temps : pydict) (keys : list string) :
  forall acc devs,
    SensorPlatform.add_temps temps keys acc = Ok devs ->
    exists sensors,
      devs = acc ++ map ATemp sensors
      /\ Forall2 (fun key s =>
                    exists u units,
                      assoc "units" temps = Some u
                      /\ getitem u "name" = Ok units
                      /\ TempSensor.init temps key units = Ok s)
           (filter (numeric_at temps) keys) sensors.
Proof.
  induction keys as [| key rest IH]; intros acc devs Hrun; simpl in Hrun.
  - inversion Hrun; subst. exists []. simpl.
    split; [symmetry; apply app_nil_r | constructor].
  - unfold dict_getitem in Hrun at 1. simpl. unfold numeric_at at 1.
    destruct (assoc key temps) as [v |] eqn:Hv; simpl in Hrun;
      [| discriminate].
    destruct (is_number v) eqn:Hnum.
    + unfold dict_getitem in Hrun at 1.
      destruct (assoc "units" temps) as [u |] eqn:Hu; simpl in Hrun;
        [| discriminate].
      destruct (getitem u "name") as [units | e] eqn:Hname; simpl in Hrun;
        [| discriminate].
      destruct (TempSensor.init temps key units) as [sensor | e] eqn:Hinit;
        simpl in Hrun; [| discriminate].
      destruct (IH _ _ Hrun) as (sensors & Hdevs & Hall).
      exists (sensor :: sensors). simpl.
      split; [rewrite Hdevs, <- app_assoc; reflexivity |].
      constructor; [| exact Hall].
      exists u, units. repeat split; assumption.
    + apply IH. exact Hrun.
Qed.

Lemma add_pumps_spec (K : constants) (pumps : list pyval) :
  forall acc devs,
    SensorPlatform.add_pumps K pumps acc = Ok devs ->
    exists built,
      devs = acc ++ List.concat built
      /\ Forall2 (fun pump three =>
                    exists record rpm watts,
                      pump = VDict record
                      /\ RPMSensor.init record = Ok rpm
                      /\ PowerSensor.init record = Ok watts
                      /\ three
                         = [ARPM rpm; APower watts;
                            AStatus (StatusSensor.init record (EVENT_PUMP K))])
           pumps built.
Proof.
  induction pumps as [| pump rest IH]; intros acc devs Hrun; simpl in Hrun.
  - inversion Hrun; subst. exists []. simpl.
    split; [symmetry; apply app_nil_r | constructor].
  - destruct pump as [| | | | | record]; try discriminate.
    destruct (RPMSensor.init record) as [rpm | e] eqn:Hrpm; simpl in Hrun;
      [| discriminate].
    destruct (PowerSensor.init record) as [watts | e] eqn:Hwatts;
      simpl in Hrun; [| discriminate].
    destruct (IH _ _ Hrun) as (built & Hdevs & Hall).
    exists ([ARPM rpm; APower watts;
             AStatus (StatusSensor.init record (EVENT_PUMP K))] :: built).
    split.
    + rewrite Hdevs, <- app_assoc. reflexivity.
    + constructor; [| exact Hall].
      exists record, rpm, watts. repeat split; assumption.
Qed.

Lemma add_chlorinators_spec (K : constants) (chlorinators : list pyval) :
  forall acc devs,
    SensorPlatform.add_chlorinators K chlorinators acc = Ok devs ->
    exists built,
      devs = acc ++ List.concat built
      /\ Forall2 (fun chlorinator two =>
                    exists record salt,
                      chlorinator = VDict record
                      /\ SaltSensor.init record = Ok salt
                      /\ two
                         = [ASalt salt;
                            AStatus
                              (StatusSensor.init record (EVENT_CHLORINATOR K))])
           chlorinators built.
Proof.
  induction chlorinators as [| c rest IH]; intros acc devs Hrun;
    simpl in Hrun.
  - inversion Hrun; subst. exists []. simpl.
    split; [symmetry; apply app_nil_r | constructor].
  - destruct c as [| | | | | record]; try discriminate.
    destruct (SaltSensor.init record) as [salt | e] eqn:Hsalt; simpl in Hrun;
      [| discriminate].
    destruct (IH _ _ Hrun) as (built & Hdevs & Hall).
    exists ([ASalt salt;
             AStatus (StatusSensor.init record (EVENT_CHLORINATOR K))]
            :: built).
    split.
    + rewrite Hdevs, <- app_assoc. reflexivity.
    + constructor; [| exact Hall].
      exists record, salt. repeat split; assumption.
Qed.

(** X15.  When the sensor platform sets up, what it hands over is, in this
    order: for every key of [temps] that passes the [isinstance] test (an
    integer or a boolean; the [units] and [bodies] entries do not pass),
    the temperature sensor built for that key with the unit name
    [temps.units.name]; then, for every pump in turn, its RPM, power and
    status sensor; then, for every chlorinator in turn, its salt and
    status sensor.  Every constructor has returned, so that every pump has
    [rpm] and [watts] and every chlorinator [saltLevel]. *)
Theorem sensor_setup_adds (K : constants) (temps config : pydict)
    (added : option (list adapter)) :
  SensorPlatform.async_setup_entry K temps config = Ok added ->
  exists listed_pumps pumps listed_chlorinators chlorinators
         sensors of_pumps of_chlorinators,
    assoc "pumps" config = Some listed_pumps
    /\ py_iter listed_pumps = Ok pumps
    /\ assoc "chlorinators" config = Some listed_chlorinators
    /\ py_iter listed_chlorinators = Ok chlorinators
    /\ added
       = add_entities
           (map ATemp sensors ++ List.concat of_pumps ++ List.concat of_chlorinators)
    /\ Forall2 (fun key s =>
                  exists u units,
                    assoc "units" temps = Some u
                    /\ getitem u "name" = Ok units
                    /\ TempSensor.init temps key units = Ok s)
         (filter (numeric_at temps) (map fst temps)) sensors
    /\ Forall2 (fun pump three =>
                  exists record rpm watts,
                    pump = VDict record
                    /\ RPMSensor.init record = Ok rpm
                    /\ PowerSensor.init record = Ok watts
                    /\ three
                       = [ARPM rpm; APower watts;
                          AStatus (StatusSensor.init record (EVENT_PUMP K))])
         pumps of_pumps
    /\ Forall2 (fun chlorinator two =>
                  exists record salt,
                    chlorinator = VDict record
                    /\ SaltSensor.init record = Ok salt
                    /\ two
                       = [ASalt salt;
                          AStatus
                            (StatusSensor.init record (EVENT_CHLORINATOR K))])
         chlorinators of_chlorinators.
Proof.
  unfold SensorPlatform.async_setup_entry. intros Hrun.
  destruct (SensorPlatform.add_temps temps (map fst temps) [])
    as [d1 | e] eqn:H1; simpl in Hrun; [| discriminate].
  unfold dict_getitem in Hrun.
  destruct (assoc "pumps" config) as [lp |] eqn:Hlp; simpl in Hrun;
    [| discriminate].
  destruct (py_iter lp) as [pumps | e] eqn:Hp; simpl in Hrun;
    [| discriminate].
  destruct (SensorPlatform.add_pumps K pumps d1) as [d2 | e] eqn:H2;
    simpl in Hrun; [| discriminate].
  destruct (assoc "chlorinators" config) as [lc |] eqn:Hlc; simpl in Hrun;
    [| discriminate].
  destruct (py_iter lc) as [chlorinators | e] eqn:Hc; simpl in Hrun;
    [| discriminate].
  destruct (SensorPlatform.add_chlorinators K chlorinators d2)
    as [d3 | e] eqn:H3; simpl in Hrun; [| discriminate].
  inversion Hrun; subst. clear Hrun.
  destruct (add_temps_spec _ _ _ _ H1) as (sensors & Hd1 & Hall1).
  destruct (add_pumps_spec _ _ _ _ H2) as (b2 & Hd2 & Hall2).
  destruct (add_chlorinators_spec _ _ _ _ H3) as (b3 & Hd3 & Hall3).
  simpl in Hd1. subst.
  exists lp, pumps, lc, chlorinators, sensors, b2, b3.
  repeat (split; [first [assumption | reflexivity] |]).
  split; [rewrite <- app_assoc; reflexivity |].
  split; [exact Hall1 |]. split; assumption.
Qed.

(** X16.  One incomplete pump record stops the whole sensor platform: when
    the temperature sensors were built and the pumps before it were
    complete, a pump record without [rpm] or without [watts] makes
    [async_setup_entry] raise [KeyError], and no sensor at all, of any
    equipment, is handed over. *)
Theorem incomplete_pump_aborts_setup (K : constants) (temps config : pydict)
    (built : list adapter) (listed : pyval) (front back : list pyval)
    (record : pydict) :
  SensorPlatform.add_temps temps (map fst temps) [] = Ok built ->
  assoc "pumps" config = Some listed ->
  py_iter listed = Ok (front ++ VDict record :: back) ->
  Forall (has_fields ["rpm"; "watts"]) front ->
  assoc "rpm" record = None \/ assoc "watts" record = None ->
  SensorPlatform.async_setup_entry K temps config = Raise KeyError.
Proof.
  intros Htemps Hlisted Hiter Hfront Hmissing.
  unfold SensorPlatform.async_setup_entry, dict_getitem.
  rewrite Htemps. simpl. rewrite Hlisted. simpl. rewrite Hiter. simpl.
  assert (Hloop : forall acc,
             SensorPlatform.add_pumps K (front ++ VDict record :: back) acc
             = Raise KeyError).
  { clear Hiter. induction Hfront as [| pump rest Hpump Hrest IH]; intros acc.
    - simpl. unfold RPMSensor.init, PowerSensor.init, dict_getitem.
      destruct Hmissing as [Hrpm | Hwatts].
      + rewrite Hrpm. reflexivity.
      + rewrite Hwatts. destruct (assoc "rpm" record); reflexivity.
    - destruct Hpump as (r & Hr & Hfields). subst pump. simpl.
      unfold RPMSensor.init, PowerSensor.init, dict_getitem.
      destruct (Hfields "rpm") as [rpm Hrpm]; [left; reflexivity |].
      destruct (Hfields "watts") as [watts Hwatts];
        [right; left; reflexivity |].
      rewrite Hrpm, Hwatts. simpl. apply IH. }
  rewrite Hloop. reflexivity.
Qed.

Lemma sensor_setup_adds_witness :
  exists listed_pumps pumps listed_chlorinators chlorinators
         sensors of_pumps of_chlorinators,
    assoc "pumps" (sensor_config [VDict pump_complete]) = Some listed_pumps
    /\ py_iter listed_pumps = Ok pumps
    /\ assoc "chlorinators" (sensor_config [VDict pump_complete])
       = Some listed_chlorinators
    /\ py_iter listed_chlorinators = Ok chlorinators
    /\ Some sensors_of_sample
       = add_entities
           (map ATemp sensors ++ List.concat of_pumps ++ List.concat of_chlorinators)
    /\ Forall2 (fun key s =>
                  exists u units,
                    assoc "units" temps_sample = Some u
                    /\ getitem u "name" = Ok units
                    /\ TempSensor.init temps_sample key units = Ok s)
         (filter (numeric_at temps_sample) (map fst temps_sample)) sensors
    /\ Forall2 (fun pump three =>
                  exists record rpm watts,
                    pump = VDict record
                    /\ RPMSensor.init record = Ok rpm
                    /\ PowerSensor.init record = Ok watts
                    /\ three
                       = [ARPM rpm; APower watts;
                          AStatus (StatusSensor.init record
                                     (EVENT_PUMP njspc))])
         pumps of_pumps
    /\ Forall2 (fun chlorinator two =>
                  exists record salt,
                    chlorinator = VDict record
                    /\ SaltSensor.init record = Ok salt
                    /\ two
                       = [ASalt salt;
                          AStatus
                            (StatusSensor.init record
                               (EVENT_CHLORINATOR njspc))])
         chlorinators of_chlorinators.
Proof.
  apply (sensor_setup_adds njspc temps_sample
           (sensor_config [VDict pump_complete]) (Some sensors_of_sample)).
  reflexivity.
Defined.

Lemma incomplete_pump_aborts_setup_witness :
  SensorPlatform.async_setup_entry njspc temps_sample
    (sensor_config [VDict pump_complete; VDict pump_relay])
  = Raise KeyError.
Proof.
  apply (incomplete_pump_aborts_setup njspc temps_sample
           (sensor_config [VDict pump_complete; VDict pump_relay])
           [ ATemp {| TempSensor._key := "air";
                      TempSensor._units := VStr "F";
                      TempSensor._value := VInt 75 |} ]
           (VList [VDict pump_complete; VDict pump_relay])
           [VDict pump_complete] [] pump_relay).
  - reflexivity.
  - reflexivity.
  - reflexivity.
  - constructor; [| constructor].
    exists pump_complete. split; [reflexivity |].
    intros f [Hf | [Hf | []]]; subst; eexists; reflexivity.
  - left. reflexivity.
Defined.

(** ** Setting up the light platform *)

Section LightSetup.
Variable K : constants.
Variable DESC : string.
Variable get_lightthemes : pyval -> result pyval.
Variable base_init : CircuitLight.PoolEquipmentClass -> pydict -> result pyval.

Local Abbreviation new_light :=
  (LightPlatform.new_light K DESC get_lightthemes base_init).
Local Abbreviation light_of_circuit :=
  (LightPlatform.light_of_circuit K DESC get_lightthemes base_init).
Local Abbreviation add_circuits :=
  (LightPlatform.add_circuits K DESC get_lightthemes base_init).
Local Abbreviation add_groups :=
  (LightPlatform.add_groups K DESC get_lightthemes base_init).

Lemma new_light_class (cls : CircuitLight.PoolEquipmentClass) (c : pyval)
    (l : CircuitLight.t) :
  new_light cls c = Ok l ->
  CircuitLight.equipment_class l = cls
  /\ CircuitLight.available l = VBool true
  /\ exists record id, c = VDict record /\ assoc "id" record = Some id.
Proof.
  unfold LightPlatform.new_light. intros Hnew.
  destruct c as [| | | | | record]; try discriminate.
  unfold dict_getitem in Hnew.
  destruct (assoc "id" record) as [id |] eqn:Hid; simpl in Hnew;
    [| discriminate].
  destruct (get_lightthemes id) as [listed | e]; simpl in Hnew;
    [| discriminate].
  destruct (py_iter listed) as [themes | e]; simpl in Hnew; [| discriminate].
  destruct (collect DESC themes []) as [table | e]; simpl in Hnew;
    [| discriminate].
  destruct (base_init cls record) as [eid | e]; simpl in Hnew;
    [| discriminate].
  unfold CircuitLight.init in Hnew.
  destruct (if dict_contains record "isOn"
            then dict_getitem record "isOn" else Ok VNone) as [v | e];
    simpl in Hnew; [| discriminate].
  destruct (if dict_contains record "lightingTheme"
            then rbind (dict_getitem record "lightingTheme")
                   (fun lt => getitem lt "val")
            else Ok VNone) as [th | e];
    simpl in Hnew; [| discriminate].
  inversion Hnew; subst; simpl.
  repeat split. exists record, id. split; [reflexivity | exact Hid].
Qed.

Lemma add_circuits_spec (circuits : list pyval) :
  forall acc devs,
    add_circuits circuits acc = Ok devs ->
    exists lights,
      devs = acc ++ lights
      /\ (List.length lights <= List.length circuits)%nat
      /\ Forall (fun l => exists c ty is_light,
                     In c circuits
                     /\ getitem c "type" = Ok ty
                     /\ getitem ty "isLight" = Ok is_light
                     /\ py_truthy is_light = true
                     /\ new_light CircuitLight.LIGHT c = Ok l) lights.
Proof.
  induction circuits as [| c rest IH]; intros acc devs Hrun.
  - simpl in Hrun. inversion Hrun; subst. exists [].
    split; [symmetry; apply app_nil_r |]. split; [simpl; lia | constructor].
  - simpl in Hrun.
    destruct (light_of_circuit c) as [found | e] eqn:Hfound; simpl in Hrun;
      [| discriminate].
    destruct (IH _ _ Hrun) as (lights & Hdevs & Hlen & Hall).
    assert (Hrest : Forall (fun l => exists c0 ty is_light,
                     In c0 (c :: rest)
                     /\ getitem c0 "type" = Ok ty
                     /\ getitem ty "isLight" = Ok is_light
                     /\ py_truthy is_light = true
                     /\ new_light CircuitLight.LIGHT c0 = Ok l) lights).
    { rewrite Forall_forall in *. intros l Hl.
      destruct (Hall l Hl) as (c0 & ty & il & Hin & Hrest).
      exists c0, ty, il. split; [right; exact Hin | exact Hrest]. }
    destruct found as [light |].
    + exists (light :: lights).
      split; [rewrite Hdevs, <- app_assoc; reflexivity |].
      split; [simpl; lia |].
      constructor; [| exact Hrest].
      unfold LightPlatform.light_of_circuit in Hfound.
      destruct (getitem c "type") as [ty | e] eqn:Hty; simpl in Hfound;
        [| destruct e; discriminate].
      destruct (getitem ty "isLight") as [il | e] eqn:Hil; simpl in Hfound;
        [| destruct e; discriminate].
      destruct (py_truthy il) eqn:Htruthy; [| discriminate].
      destruct (new_light CircuitLight.LIGHT c) as [l0 | e] eqn:Hnew;
        simpl in Hfound; [| destruct e; discriminate].
      inversion Hfound; subst.
      exists c, ty, il. repeat split; auto. left. reflexivity.
    + exists lights. split; [exact Hdevs |]. split; [simpl; lia | exact Hrest].
Qed.

Lemma add_groups_spec (groups : list pyval) :
  forall acc devs,
    add_groups groups acc = Ok devs ->
    exists lights,
      devs = acc ++ lights
      /\ Forall2 (fun g l => new_light CircuitLight.LIGHT_GROUP g = Ok l)
           groups lights.
Proof.
  induction groups as [| g rest IH]; intros acc devs Hrun.
  - simpl in Hrun. inversion Hrun; subst. exists [].
    split; [symmetry; apply app_nil_r | constructor].
  - simpl in Hrun.
    destruct (new_light CircuitLight.LIGHT_GROUP g) as [l | e] eqn:Hnew;
      simpl in Hrun; [| discriminate].
    destruct (IH _ _ Hrun) as (lights & Hdevs & Hall).
    exists (l :: lights).
    split; [rewrite Hdevs, <- app_assoc; reflexivity |].
    constructor; assumption.
Qed.

(** X17.  When the light platform sets up, it hands over first the lights
    of the circuits and then those of the light groups.  Every light group
    of the configuration has its entity, in order; a circuit has one only
    if its [type.isLight] is true and it could be built, so that there may
    be fewer circuit lights than circuits.  Every entity starts
    available and was built from a record with an [id]. *)
Theorem light_setup_adds (config : pydict)
    (added : option (list CircuitLight.t)) :
  LightPlatform.async_setup_entry K DESC get_lightthemes base_init config
  = Ok added ->
  exists listed_circuits circuits listed_groups groups lights group_lights,
    assoc "circuits" config = Some listed_circuits
    /\ py_iter listed_circuits = Ok circuits
    /\ assoc "lightGroups" config = Some listed_groups
    /\ py_iter listed_groups = Ok groups
    /\ added = add_entities (lights ++ group_lights)
    /\ (List.length lights <= List.length circuits)%nat
    /\ Forall (fun l => exists c ty is_light,
                   In c circuits
                   /\ getitem c "type" = Ok ty
                   /\ getitem ty "isLight" = Ok is_light
                   /\ py_truthy is_light = true
                   /\ new_light CircuitLight.LIGHT c = Ok l) lights
    /\ Forall2 (fun g l => new_light CircuitLight.LIGHT_GROUP g = Ok l)
         groups group_lights
    /\ Forall (fun l => CircuitLight.available l = VBool true)
         (lights ++ group_lights).
Proof.
  unfold LightPlatform.async_setup_entry, dict_getitem. intros Hrun.
  destruct (assoc "circuits" config) as [lc |] eqn:Hlc; simpl in Hrun;
    [| discriminate].
  destruct (py_iter lc) as [circuits | e] eqn:Hc; simpl in Hrun;
    [| discriminate].
  destruct (add_circuits circuits []) as [d1 | e] eqn:H1; simpl in Hrun;
    [| discriminate].
  destruct (assoc "lightGroups" config) as [lg |] eqn:Hlg; simpl in Hrun;
    [| discriminate].
  destruct (py_iter lg) as [groups | e] eqn:Hg; simpl in Hrun;
    [| discriminate].
  destruct (add_groups groups d1) as [d2 | e] eqn:H2; simpl in Hrun;
    [| discriminate].
  inversion Hrun; subst. clear Hrun.
  destruct (add_circuits_spec _ _ _ H1) as (lights & Hd1 & Hlen & Hall1).
  destruct (add_groups_spec _ _ _ H2) as (glights & Hd2 & Hall2).
  simpl in Hd1. subst.
  exists lc, circuits, lg, groups, lights, glights.
  repeat (split; [first [assumption | reflexivity] |]).
  apply Forall_app. split.
  - rewrite Forall_forall in *. intros l Hl.
    destruct (Hall1 l Hl) as (c & ty & il & _ & _ & _ & _ & Hnew).
    apply (new_light_class _ _ _ Hnew).
  - clear H2 Hg. induction Hall2 as [| g l gs ls Hone Hrest IH]; constructor.
    + apply (new_light_class _ _ _ Hone).
    + exact IH.
Qed.

(** X18.  The two loops of the light set-up treat the same failure
    differently.  A circuit whose record has no [type], whose [type] has no
    [isLight], which is no light, or whose entity cannot be built for a
    [KeyError] (no [id], a theme without [val], a [lightingTheme] without
    [val]) is passed over as if the configuration did not list it.  A
    circuit that is no object raises [TypeError] out of the set-up, and so
    does every exception, [KeyError] included, that building a light group
    raises. *)
Theorem light_setup_failures :
  (forall front c back acc,
      (getitem c "type" = Raise KeyError
       \/ (exists ty, getitem c "type" = Ok ty
                      /\ getitem ty "isLight" = Raise KeyError)
       \/ (exists ty is_light,
              getitem c "type" = Ok ty
              /\ getitem ty "isLight" = Ok is_light
              /\ (py_truthy is_light = false
                  \/ new_light CircuitLight.LIGHT c = Raise KeyError))) ->
      add_circuits (front ++ c :: back) acc = add_circuits (front ++ back) acc)
  /\ (forall front c back acc,
         Forall (fun c0 => exists found, light_of_circuit c0 = Ok found) front ->
         getitem c "type" = Raise TypeError ->
         add_circuits (front ++ c :: back) acc = Raise TypeError)
  /\ (forall front g back acc e,
         Forall (fun g0 => exists l,
                     new_light CircuitLight.LIGHT_GROUP g0 = Ok l) front ->
         new_light CircuitLight.LIGHT_GROUP g = Raise e ->
         add_groups (front ++ g :: back) acc = Raise e).
Proof.
  split; [| split].
  - intros front c back acc Hskip.
    assert (Hnone : light_of_circuit c = Ok None).
    { unfold LightPlatform.light_of_circuit.
      destruct Hskip as [Hty | [(ty & Hty & Hil) | (ty & il & Hty & Hil & Hwhy)]].
      - rewrite Hty. reflexivity.
      - rewrite Hty. simpl. rewrite Hil. reflexivity.
      - rewrite Hty. simpl. rewrite Hil. simpl.
        destruct Hwhy as [Hfalse | Hnew].
        + rewrite Hfalse. reflexivity.
        + destruct (py_truthy il); [rewrite Hnew |]; reflexivity. }
    revert acc. induction front as [| f front IH]; intros acc.
    + simpl. rewrite Hnone. reflexivity.
    + simpl.
      destruct (light_of_circuit f) as [found | e]; simpl; [| reflexivity].
      apply IH.
  - intros front c back acc Hfront Hty. revert acc.
    induction Hfront as [| f front [found Hf] Hrest IH]; intros acc.
    + simpl. unfold LightPlatform.light_of_circuit. rewrite Hty. reflexivity.
    + simpl. rewrite Hf. simpl. apply IH.
  - intros front g back acc e Hfront Hnew. revert acc.
    induction Hfront as [| f front [l Hf] Hrest IH]; intros acc.
    + simpl. rewrite Hnew. reflexivity.
    + simpl. rewrite Hf. simpl. apply IH.
Qed.

End LightSetup.

Lemma light_setup_adds_witness :
  exists listed_circuits circuits listed_groups groups lights group_lights,
    assoc "circuits" light_config = Some listed_circuits
    /\ py_iter listed_circuits = Ok circuits
    /\ assoc "lightGroups" light_config = Some listed_groups
    /\ py_iter listed_groups = Ok groups
    /\ Some [light_with themes_sample VNone]
       = add_entities (lights ++ group_lights)
    /\ (List.length lights <= List.length circuits)%nat
    /\ Forall (fun l => exists c ty is_light,
                   In c circuits
                   /\ getitem c "type" = Ok ty
                   /\ getitem ty "isLight" = Ok is_light
                   /\ py_truthy is_light = true
                   /\ LightPlatform.new_light njspc "desc" themes_api base_id
                        CircuitLight.LIGHT c = Ok l) lights
    /\ Forall2 (fun g l =>
                  LightPlatform.new_light njspc "desc" themes_api base_id
                    CircuitLight.LIGHT_GROUP g = Ok l)
         groups group_lights
    /\ Forall (fun l => CircuitLight.available l = VBool true)
         (lights ++ group_lights).
Proof.
  apply (light_setup_adds njspc "desc" themes_api base_id light_config
           (Some [light_with themes_sample VNone])).
  reflexivity.
Defined.

Lemma light_setup_failures_witness :
  LightPlatform.add_circuits njspc "desc" themes_api base_id
    ([VDict circuit_pump] ++ VDict circuit_no_id :: [VDict circuit_light]) []
  = LightPlatform.add_circuits njspc "desc" themes_api base_id
      ([VDict circuit_pump] ++ [VDict circuit_light]) []
  /\ LightPlatform.add_groups njspc "desc" themes_api base_id
       ([VDict circuit_light] ++ VDict circuit_no_id :: []) []
     = Raise KeyError.
Proof.
  split.
  - apply (proj1 (light_setup_failures njspc "desc" themes_api base_id)).
    right. right.
    exists (VDict [("isLight", VBool true)]), (VBool true).
    split; [reflexivity |]. split; [reflexivity |]. right. reflexivity.
  - apply (proj2 (proj2 (light_setup_failures njspc "desc" themes_api
                           base_id))).
    + constructor; [| constructor]. eexists. reflexivity.
    + reflexivity.
Defined.

(** ** Building a light *)

(** X19.  Building a light fails only on a [lightingTheme] that has no
    [val], and then with the exception of that lookup.  A light that was
    built is available, shows the record's [isOn], or [None] without one,
    accepts exactly the events of its class's kind (circuit or light
    group) that carry the id the base class stored, and sends its on/off
    commands to its class's URL. *)
Theorem light_init_binds (K : constants)
    (transport : string -> pydict -> option exn) (id : pyval)
    (cls : CircuitLight.PoolEquipmentClass) (circuit : pydict)
    (themes : table pyval) :
  let kind :=
    match cls with
    | CircuitLight.LIGHT => EVENT_CIRCUIT K
    | CircuitLight.LIGHT_GROUP => EVENT_LIGHTGROUP K
    end in
  let url :=
    match cls with
    | CircuitLight.LIGHT => API_CIRCUIT_SETSTATE K
    | CircuitLight.LIGHT_GROUP => API_LIGHTGROUP_SETSTATE K
    end in
  (forall e,
      CircuitLight.init K id cls circuit themes = Raise e <->
      exists lt, assoc "lightingTheme" circuit = Some lt
                 /\ getitem lt "val" = Raise e)
  /\ (forall l,
         CircuitLight.init K id cls circuit themes = Ok l ->
         CircuitLight.available l = VBool true
         /\ CircuitLight.is_on l
            = Ok match assoc "isOn" circuit with
                 | Some v => v
                 | None => VNone
                 end
         /\ (forall data,
                subscribed K data (ALight l)
                = kind_is data kind && id_is data (Some id))
         /\ (forall kwargs,
                trace (CircuitLight.async_turn_off transport kwargs l)
                = [Command url [("id", id); ("state", VBool false)]])
         /\ (forall kwargs,
                assoc CircuitLight.ATTR_EFFECT kwargs = None ->
                trace (CircuitLight.async_turn_on K transport kwargs l)
                = [Command url [("id", id); ("state", VBool true)]])).
Proof.
  intros kind url. subst kind url.
  unfold CircuitLight.init, dict_contains, dict_getitem.
  destruct (assoc "isOn" circuit) as [on |]; simpl;
    destruct (assoc "lightingTheme" circuit) as [lt |]; simpl.
  1, 3: destruct (getitem lt "val") as [v | e0] eqn:Hval; simpl.
  all: split.
  all: try (intros e; split;
            [ intros He; try discriminate; inversion He; subst; eauto
            | intros (lt' & Hlt & Hv); try discriminate;
              inversion Hlt; subst; congruence ]).
  all: try (intros l Hl; discriminate).
  all: intros l Hl; inversion Hl; subst; clear Hl.
  all: repeat split.
  all: try (intros kwargs Hno;
            unfold CircuitLight.async_turn_on, CircuitLight.turn_on_state,
              bind, get, api_command, dict_contains, trace;
            rewrite Hno; reflexivity).
Qed.

Lemma light_init_binds_witness :
  CircuitLight.init njspc (VInt 6) CircuitLight.LIGHT_GROUP
    [("id", VInt 6); ("lightingTheme", VDict [])] themes_sample
  = Raise KeyError.
Proof.
  apply (proj1 (light_init_binds njspc delivered (VInt 6)
                  CircuitLight.LIGHT_GROUP
                  [("id", VInt 6); ("lightingTheme", VDict [])]
                  themes_sample) KeyError).
  exists (VDict []). split; reflexivity.
Defined.

(** ** The unit of the climate entity *)

(** X20.  The three unit-dependent properties of the climate entity agree:
    the limits are Fahrenheit limits (70 to 104) exactly when
    [temperature_unit] is Fahrenheit and Celsius limits (21 to 40)
    otherwise, and the lower limit is always below the upper one. *)
Theorem climate_limits_follow_unit (self : Climate.t) :
  exists lo hi,
    Climate.min_temp self = Ok lo
    /\ Climate.max_temp self = Ok hi
    /\ lo < hi
    /\ match Climate.temperature_unit self with
       | TEMP_FAHRENHEIT => 70 <= lo /\ hi <= 104
       | TEMP_CELSIUS => 21 <= lo /\ hi <= 40
       end.
Proof.
  unfold Climate.min_temp, Climate.max_temp, Climate.temperature_unit,
    dict_getitem.
  destruct (assoc "type" (Climate._body self)) as [ty |]; simpl.
  - destruct (getitem ty "val") as [v | e]; simpl.
    + destruct (py_eq v (VInt 0));
        destruct (py_eq (Climate._units self) (VInt 0));
        eexists; eexists; repeat split; lia.
    + destruct (py_eq (Climate._units self) (VInt 0));
        eexists; eexists; repeat split; lia.
  - destruct (py_eq (Climate._units self) (VInt 0));
      eexists; eexists; repeat split; lia.
Qed.

(** ** What is listed can be selected *)

Lemma py_eq_refl_hashable (v : pyval) : hashable v = true -> py_eq v v = true.
Proof.
  destruct v; simpl; try discriminate; intros _.
  - reflexivity.
  - destruct b; reflexivity.
  - apply Z.eqb_refl.
  - apply String.eqb_refl.
Qed.

Lemma listed_label_maps (t : table pyval) (label : pyval) :
  In label (table_values t) -> hashable label = true ->
  exists k v, In (k, v) t /\ py_eq v label = true.
Proof.
  unfold table_values. intros Hin Hh.
  apply in_map_iff in Hin. destruct Hin as ([k v] & Hv & Hin).
  simpl in Hv. subst v.
  exists k, label. split; [exact Hin | apply py_eq_refl_hashable; exact Hh].
Qed.

(** X21.  What the entities list can be selected.  The current
    [preset_mode] is ["Off"] or one of [preset_modes].  Requesting a label
    of [preset_modes] sends one heat-mode command whose code the table
    maps to an equal label, and requesting an effect of [effect_list] sends
    one theme command likewise (labels being hashable, no code being
    [None], and the climate body having an [id]); nothing is logged. *)
Theorem listed_labels_are_selectable (K : constants)
    (transport : string -> pydict -> option exn) :
  (forall c : Climate.t,
      exists v,
        Climate.preset_mode c = Ok v
        /\ (v = VStr "Off" \/ In v (Climate.preset_modes c)))
  /\ (forall (c : Climate.t) (label id : pyval),
         In label (Climate.preset_modes c) ->
         hashable label = true ->
         assoc "id" (Climate._body c) = Some id ->
         (forall k v, In (k, v) (Climate._heatmodes c) -> k <> VNone) ->
         exists code v,
           In (code, v) (Climate._heatmodes c) /\ py_eq v label = true
           /\ Climate.async_set_preset_mode transport label c
              = (c, [Command "state/body/heatMode"
                       [("id", id); ("mode", code)]],
                 transport_result transport "state/body/heatMode"
                   [("id", id); ("mode", code)]))
  /\ (forall (l : CircuitLight.t) (labels : list pyval) (label : pyval)
             (kwargs : pydict),
         CircuitLight.effect_list l = VList labels ->
         In label labels ->
         hashable label = true ->
         assoc CircuitLight.ATTR_EFFECT kwargs = Some label ->
         (forall k v, In (k, v) (CircuitLight._lightthemes l) -> k <> VNone) ->
         exists code v,
           In (code, v) (CircuitLight._lightthemes l) /\ py_eq v label = true
           /\ CircuitLight.async_turn_on K transport kwargs l
              = (l, [Command (API_CIRCUIT_SETTHEME K)
                       [("id", CircuitLight.equipment_id l); ("theme", code)]],
                 transport_result transport (API_CIRCUIT_SETTHEME K)
                   [("id", CircuitLight.equipment_id l); ("theme", code)])).
Proof.
  split; [| split].
  - intros c. unfold Climate.preset_mode, Climate.preset_modes, dict_getitem.
    destruct (assoc "heatMode" (Climate._body c)) as [hm |]; simpl;
      [| eauto].
    destruct (getitem hm "val") as [v | e]; simpl; [| eauto].
    unfold table_getitem.
    destruct (hashable v); simpl; [| eauto].
    destruct (table_find (Climate._heatmodes c) v) as [label |] eqn:Hfind;
      simpl; [| eauto].
    exists label. split; [reflexivity |]. right.
    destruct (table_find_in _ _ _ Hfind) as (k & Hin & _).
    unfold table_values. apply (in_map snd _ _ Hin).
  - intros c label id Hin Hh Hid Hcodes.
    apply set_preset_found; [exact Hid | | exact Hcodes].
    apply listed_label_maps; assumption.
  - intros l labels label kwargs Hlist Hin Hh Heff Hcodes.
    apply turn_on_found; [exact Heff | | exact Hcodes].
    apply listed_label_maps; [| exact Hh].
    unfold CircuitLight.effect_list in Hlist.
    destruct (0 <? Z.of_nat (List.length (CircuitLight._lightthemes l)));
      [| discriminate].
    inversion Hlist; subst. exact Hin.
Qed.

Lemma listed_labels_are_selectable_witness :
  exists code v,
    In (code, v) themes_sample /\ py_eq v (VStr "Party") = true
    /\ CircuitLight.async_turn_on njspc delivered [("effect", VStr "Party")]
         (light_with themes_sample VNone)
       = (light_with themes_sample VNone,
          [Command "state/circuit/setTheme" [("id", VInt 6); ("theme", code)]],
          Ok tt).
Proof.
  apply (proj2 (proj2 (listed_labels_are_selectable njspc delivered))
           (light_with themes_sample VNone)
           [VStr "Off"; VStr "Party"] (VStr "Party")
           [("effect", VStr "Party")]).
  - reflexivity.
  - right. left. reflexivity.
  - reflexivity.
  - reflexivity.
  - intros k v Hin. simpl in Hin.
    repeat (destruct Hin as [Hin | Hin]; [inversion Hin; discriminate |]).
    contradiction.
Defined.

(** ** Delivering an event again *)

(** X22.  Delivering an event a second time changes nothing further: the
    entity after the second delivery is the entity after the first, for
    every entity and every event, whether the handler returned or
    raised. *)
Theorem redelivery_changes_nothing (K : constants) (data : pydict)
    (a : adapter) :
  deliver_all K [data; data] a = deliver_all K [data] a.
Proof.
  unfold deliver_all. simpl.
  destruct a as [e | e | e | e | e | e | e].
  all: unfold deliver, rewrap, final_state,
         Climate._handle_coordinator_update,
         CircuitLight._handle_coordinator_update,
         TempSensor._handle_coordinator_update,
         RPMSensor._handle_coordinator_update,
         PowerSensor._handle_coordinator_update,
         SaltSensor._handle_coordinator_update,
         StatusSensor._handle_coordinator_update,
         bind, get, put, lift, ret, async_write_ha_state, emit,
         dict_getitem, dict_contains, trace, outcome; simpl.
  all: repeat case_goal.
  all: try reflexivity.
  all: simpl in *; try congruence.
  rewrite Heqo1 in Heqo0. inversion Heqo0; subst.
  rewrite Heqr0 in Heqr. inversion Heqr; subst. reflexivity.
Qed.
